(** * belaysdk training scripts: a shallow embedding

    The repository holds three straight-line Python scripts,
    [scripts/trainModel.py], [scripts/trainPriorityFeeML.py] and
    [scripts/trainSuccessClassifier.py].  Each one loads a JSON array of
    transaction records, derives features with pandas, splits and fits a
    random forest with scikit-learn, and writes a model file followed by a
    JSON metadata file.

    The scripts are embedded statement by statement in a state-and-exception
    monad over a small file system.  The pandas operations they call are
    modelled column by column (a frame is an ordered list of named columns);
    the learning library is an interface ([Sklearn]) whose only law is that
    its seeded generator returns permutations.  The world a script runs in
    also holds what the script does not control: which paths cannot be
    written, which writes break off, the state of numpy's global generator
    and the order in which the threads of a parallel call finish. *)

From Stdlib Require Import QArith Qround Qabs Lqa.
From stdpp Require Import base option list strings gmap sorting.

Local Open Scope string_scope.
Local Open Scope list_scope.

(** ** Numbers

    JSON numbers are modelled as rationals: the value of the float64 or
    int64 that [json.load] and pandas hold for them, taken in the range in
    which turning a column into float64 is exact (integers of up to 53
    bits).  A float64 cell of a frame is an [option Q] whose [None] is NaN
    (a missing value).  The scripts do arithmetic on these numbers in one
    place only, the mean of the two middle values in the median of an even
    number of values: it is exact here, where float64 rounds it (and
    overflows next to the largest floats). *)

Definition Qltb (x y : Q) : bool := negb (Qle_bool y x).
Definition Qeqb (x y : Q) : bool := Qeq_bool x y.

#[global] Instance Qle_decision (x y : Q) : Decision (Qle x y).
Proof.
  destruct (Qle_bool x y) eqn:E.
  - left. by apply Qle_bool_iff.
  - right. intros H. apply Qle_bool_iff in H. congruence.
Defined.

Definition bool_to_Q (b : bool) : Q := if b then 1%Q else 0%Q.

(** ** Python exceptions and process exit *)

Inductive Exception :=
  | FileNotFoundError (path : string)
  | JSONDecodeError
  | UnicodeDecodeError
  | KeyError (key : string)
  | TypeError
  | ValueError
  | IndexError
  | OSError (path : string)
  | SystemExit (code : Z).

Inductive Res (A : Type) :=
  | Ok (a : A)
  | Raise (e : Exception).
Arguments Ok {A} a.
Arguments Raise {A} e.

#[global] Instance Res_ret : MRet Res := λ A a, Ok a.
#[global] Instance Res_bind : MBind Res := λ A B f r,
  match r with Ok a => f a | Raise e => Raise e end.
#[global] Instance Res_fmap : FMap Res := λ A B f r,
  match r with Ok a => Ok (f a) | Raise e => Raise e end.

(** [exit(code)] raises [SystemExit]. *)
Definition exit {A} (code : Z) : Res A := Raise (SystemExit code).

(** The status the interpreter returns to the shell: 0 when the script runs
    to its end, the code of [exit(code)], and 1 after the traceback of any
    other uncaught exception. *)
Definition exit_code {A} (r : Res A) : Z :=
  match r with
  | Ok _ => 0
  | Raise (SystemExit c) => c
  | Raise _ => 1
  end.

(** ** Transaction records (the elements of the input JSON array)

    The program identifier is stored under the key [program] in
    [labeled_transactions.json] and under [programId] in the ML training
    data; the record has one field for it and the frame exposes it under
    both names.  Every key is present in every record but
    [computeUnitsUsed], which a record may lack, hold as [null] or hold as
    a number. *)

Inductive Entry :=
  | NoKey
  | Null
  | Number (q : Q).

Record TransactionRecord := {
  success : bool;
  program : string;
  instructionCount : Q;
  accountCount : Q;
  dataSize : Q;
  priorityFee : Q;
  networkCongestion : Q;
  computeUnitsUsed_entry : Entry;
  slotTime : Q
}.

(** The cell of the record in the column [computeUnitsUsed], when the frame
    has that column: NaN for a record without the key and for [null]. *)
Definition computeUnitsUsed (r : TransactionRecord) : option Q :=
  match computeUnitsUsed_entry r with
  | Number q => Some q
  | _ => None
  end.

Definition has_computeUnitsUsed (r : TransactionRecord) : bool :=
  match computeUnitsUsed_entry r with
  | NoKey => false
  | _ => true
  end.

(** ** A column-oriented model of the pandas operations the scripts use *)

Inductive Series :=
  | BoolSeries (l : list bool)
  | NumSeries (l : list (option Q))
  | StrSeries (l : list string).

Inductive Scalar :=
  | SBool (b : bool)
  | SNum (q : Q)
  | SStr (s : string).

Definition DataFrame := list (string * Series).

Definition series_len (s : Series) : nat :=
  match s with
  | BoolSeries l => length l
  | NumSeries l => length l
  | StrSeries l => length l
  end.

(** [len(df)] *)
Definition df_len (df : DataFrame) : nat :=
  match df with
  | [] => 0
  | (_, s) :: _ => series_len s
  end.

(** [pd.DataFrame(data)]: one column per key that occurs in some record; an
    empty list gives a frame with no columns at all.  [columns_of cu data]
    is the frame of [data] with ([cu = true]) or without the column
    [computeUnitsUsed]. *)
Definition columns_of (cu : bool) (data : list TransactionRecord) : DataFrame :=
  [ ("success", BoolSeries (success <$> data));
    ("program", StrSeries (program <$> data));
    ("programId", StrSeries (program <$> data));
    ("instructionCount", NumSeries ((Some ∘ instructionCount) <$> data));
    ("accountCount", NumSeries ((Some ∘ accountCount) <$> data));
    ("dataSize", NumSeries ((Some ∘ dataSize) <$> data));
    ("priorityFee", NumSeries ((Some ∘ priorityFee) <$> data));
    ("networkCongestion", NumSeries ((Some ∘ networkCongestion) <$> data)) ]
  ++ (if cu then [ ("computeUnitsUsed", NumSeries (computeUnitsUsed <$> data)) ]
      else [])
  ++ [ ("slotTime", NumSeries ((Some ∘ slotTime) <$> data)) ].

Definition pd_DataFrame (data : list TransactionRecord) : DataFrame :=
  match data with
  | [] => []
  | _ => columns_of (existsb has_computeUnitsUsed data) data
  end.

Fixpoint get_key {A} (k : string) (l : list (string * A)) : option A :=
  match l with
  | [] => None
  | (k', v) :: l => if String.eqb k k' then Some v else get_key k l
  end.

(** [df[col]] *)
Definition getitem (df : DataFrame) (col : string) : Res Series :=
  match get_key col df with
  | Some s => Ok s
  | None => Raise (KeyError col)
  end.

(** [df[col] = s]: replaces the column in place, or appends a new one. *)
Fixpoint setitem (df : DataFrame) (col : string) (s : Series) : DataFrame :=
  match df with
  | [] => [(col, s)]
  | (c, s') :: df => if String.eqb col c then (c, s) :: df
                     else (c, s') :: setitem df col s
  end.

(** [series == v], element by element. *)
Definition series_eq (s : Series) (v : Scalar) : list bool :=
  match s, v with
  | BoolSeries l, SBool b => (λ x, Bool.eqb x b) <$> l
  | BoolSeries l, SNum q => (λ x, Qeqb (bool_to_Q x) q) <$> l
  | NumSeries l, SNum q => (λ x, from_option (λ x, Qeqb x q) false x) <$> l
  | NumSeries l, SBool b => (λ x, from_option (λ x, Qeqb x (bool_to_Q b)) false x) <$> l
  | StrSeries l, SStr v => (λ x, String.eqb x v) <$> l
  | BoolSeries l, SStr _ => (λ _, false) <$> l
  | NumSeries l, SStr _ => (λ _, false) <$> l
  | StrSeries l, _ => (λ _, false) <$> l
  end.

(** [series > q]; comparing strings with a number raises [TypeError], and a
    NaN compares false. *)
Definition series_gt (s : Series) (q : Q) : Res (list bool) :=
  match s with
  | BoolSeries l => Ok ((λ x, Qltb q (bool_to_Q x)) <$> l)
  | NumSeries l => Ok ((λ x, from_option (Qltb q) false x) <$> l)
  | StrSeries _ => Raise TypeError
  end.

(** [series.notna()] *)
Definition notna (s : Series) : list bool :=
  match s with
  | BoolSeries l => (λ _, true) <$> l
  | NumSeries l => (λ x, bool_decide (is_Some x)) <$> l
  | StrSeries l => (λ _, true) <$> l
  end.

(** Boolean-mask selection of the rows of a list. *)
Fixpoint select {A} (l : list A) (mask : list bool) : list A :=
  match l, mask with
  | x :: l, b :: mask => if b then x :: select l mask else select l mask
  | _, _ => []
  end.

Definition series_select (s : Series) (mask : list bool) : Series :=
  match s with
  | BoolSeries l => BoolSeries (select l mask)
  | NumSeries l => NumSeries (select l mask)
  | StrSeries l => StrSeries (select l mask)
  end.

(** [df[mask]] *)
Definition df_select (df : DataFrame) (mask : list bool) : DataFrame :=
  (λ cs, (cs.1, series_select cs.2 mask)) <$> df.

(** [series.astype(int)]: booleans become 0 and 1, numbers are truncated
    towards zero; a NaN or a string cannot be converted. *)
Definition Qtrunc (x : Q) : Q :=
  inject_Z (if Qle_bool 0 x then Qfloor x else Qceiling x).

Definition astype_int (s : Series) : Res Series :=
  match s with
  | BoolSeries l => Ok (NumSeries ((Some ∘ bool_to_Q) <$> l))
  | NumSeries l =>
    from_option (λ l', Ok (NumSeries ((Some ∘ Qtrunc) <$> l'))) (Raise ValueError)
                (mapM id l)
  | StrSeries _ => Raise ValueError
  end.

(** The numeric view of a column, as [.values] gives it to numpy. *)
Definition to_numeric (s : Series) : Res (list (option Q)) :=
  match s with
  | BoolSeries l => Ok ((Some ∘ bool_to_Q) <$> l)
  | NumSeries l => Ok l
  | StrSeries _ => Raise TypeError
  end.

(** [series.median()]: NaN cells are skipped; the median of nothing is NaN.
    With an odd number of values it is the middle one; with an even number
    it is the mean of the two middle ones, exact here and rounded to
    float64 by pandas. *)
Definition median_of (l : list Q) : option Q :=
  let s := merge_sort Qle l in
  let n := length s in
  if Nat.even n
  then (x ← s !! (n / 2 - 1)%nat; y ← s !! (n / 2)%nat; Some ((x + y) / 2)%Q)
  else s !! (n / 2)%nat.

Definition median (s : Series) : Res (option Q) :=
  l ← to_numeric s; Ok (median_of (omap id l)).

(** [series.fillna(v)]: every NaN cell becomes [v]; filling with NaN changes
    nothing. *)
Definition fill (v x : option Q) : option Q :=
  match x with Some _ => x | None => v end.

Definition fillna (s : Series) (v : option Q) : Series :=
  match s with
  | NumSeries l => NumSeries (fill v <$> l)
  | _ => s
  end.

(** Rows out of columns. *)
Definition rows_of {A} (n : nat) (cols : list (list A)) : list (list A) :=
  foldr (zip_with cons) (replicate n []) cols.

(** [df[cols].values]: the listed columns, in the listed order, row by row
    (as float64; see the remark on numbers above). *)
Definition df_values (df : DataFrame) (cols : list string) : Res (list (list (option Q))) :=
  cs ← mapM (λ c, s ← getitem df c; to_numeric s) cols;
  Ok (rows_of (df_len df) cs).

(** ** The scripts' constants *)

Definition JUPITER := "JUP6LkbZbjS1jKKwapdHNy74zcZ3tLUZoi5QNyVTaV4".
Definition RAYDIUM := "675kPX9MHTjS2zt1qfr1NYHuzeLXfQM9H24wFSUt1Mp8".

(** ** The feature lines read record by record

    These are the row-level counterparts of the column operations: the
    filter predicates, the one-hot flags, the imputed cell and the feature
    vector of one record.  The [_features_rows] lemmas below show that the
    column-level scripts compute exactly these. *)

Definition is_success (r : TransactionRecord) : bool := Bool.eqb (success r) true.
Definition has_fee (r : TransactionRecord) : bool := Qltb 0 (priorityFee r).
Definition has_cu (r : TransactionRecord) : bool :=
  bool_decide (is_Some (computeUnitsUsed r)).

Definition jupiter_flag (r : TransactionRecord) : Q :=
  bool_to_Q (String.eqb (program r) JUPITER).
Definition raydium_flag (r : TransactionRecord) : Q :=
  bool_to_Q (String.eqb (program r) RAYDIUM).

Definition with_flags (rows : list TransactionRecord) : DataFrame :=
  columns_of true rows ++
  [ ("program_jupiter", NumSeries ((Some ∘ jupiter_flag) <$> rows));
    ("program_raydium", NumSeries ((Some ∘ raydium_flag) <$> rows)) ].

Definition column_median (rows : list TransactionRecord) : option Q :=
  median_of (omap computeUnitsUsed rows).

Definition imputed (m : option Q) (r : TransactionRecord) : option Q :=
  fill m (computeUnitsUsed r).

Definition imputed_frame (rows : list TransactionRecord) : DataFrame :=
  setitem (with_flags rows) "computeUnitsUsed"
          (NumSeries (imputed (column_median rows) <$> rows)).

Definition trainModel_rows (data : list TransactionRecord) : list TransactionRecord :=
  List.filter has_cu (List.filter is_success data).

Definition trainModel_vector (r : TransactionRecord) : list (option Q) :=
  [ Some (instructionCount r); Some (accountCount r); Some (dataSize r);
    Some (priorityFee r); Some (networkCongestion r);
    Some (jupiter_flag r); Some (raydium_flag r) ].

Definition priorityFee_rows (data : list TransactionRecord) : list TransactionRecord :=
  List.filter has_fee (List.filter is_success data).

Definition priorityFee_vector (m : option Q) (r : TransactionRecord) : list (option Q) :=
  [ Some (instructionCount r); Some (accountCount r); imputed m r;
    Some (slotTime r); Some (jupiter_flag r); Some (raydium_flag r) ].

Definition classifier_vector (m : option Q) (r : TransactionRecord) : list (option Q) :=
  [ Some (instructionCount r); Some (accountCount r); imputed m r;
    Some (priorityFee r); Some (slotTime r);
    Some (jupiter_flag r); Some (raydium_flag r) ].

(** ** The learning library (scikit-learn, numpy), as an interface

    Tree fitting, prediction and the metric formulas are opaque functions of
    their arguments and of the seed they are given.  A forest answers by
    adding up the answers of its trees; [predict] and [predict_proba] take
    the order in which that is done as their first argument, since a sum of
    floats depends on it.  The one law is the contract of
    [RandomState.permutation]. *)

Inductive ModelKind := RandomForestRegressor | RandomForestClassifier.

Record ForestParams := {
  n_estimators : nat;
  max_depth : nat;
  min_samples_split : nat;
  min_samples_leaf : nat;
  random_state : option nat;
  n_jobs : Z;
  class_weight : option string
}.

Definition Matrix := list (list (option Q)).
Definition Vector := list (option Q).

Class Sklearn := {
  Model : Type;
  float : Type;
  rng_permutation : nat → nat → list nat;
  rng_permutation_perm : ∀ seed n, rng_permutation seed n ≡ₚ seq 0 n;
  stratified_indices : nat → Vector → nat → nat → Res (list nat * list nat);
  forest_fit : ModelKind → ForestParams → nat → Matrix → Vector → Res Model;
  predict : nat → Model → Matrix → list float;
  predict_proba : nat → Model → Matrix → list (list float);
  confusion_matrix : Vector → list float → list (list Z);
  mean_absolute_error : Vector → list float → float;
  mean_squared_error : Vector → list float → float;
  r2_score : Vector → list float → float;
  accuracy_score : Vector → list float → float;
  precision_score : Vector → list float → float;
  recall_score : Vector → list float → float;
  f1_score : Vector → list float → float;
  np_sqrt : float → float;
  float_mul : float → Q → float
}.

Section Scripts.
Context `{Sklearn}.

(** ** Files and the world a script runs in *)

Inductive JValue :=
  | JStr (s : string)
  | JInt (n : Z)
  | JFloat (x : float)
  | JList (l : list string).

(** What a file holds: text that is not a JSON document ([Garbage]: any
    other text, an empty file, a JSON text cut short), a JSON array of
    transaction records, a JSON object (one entry per key), or a pickled
    model. *)
Inductive File :=
  | Garbage
  | JsonRecords (data : list TransactionRecord)
  | JsonObject (o : list (string * JValue))
  | Pickle (m : Model).

(** [denied] holds the paths the process cannot create or open for writing
    (nothing is changed there).  [failing] holds the paths that can be
    opened but whose writes break off part-way (a full device, for one),
    each with what is then left in the file.  [entropy] is the state of
    numpy's global generator, which a call with [random_state=None] draws
    from.  [threads i] is the order in which the worker threads of the
    [i]-th parallel prediction from now will finish. *)
Record World := {
  files : gmap string File;
  dirs : gset string;
  denied : gset string;
  failing : gmap string File;
  entropy : nat;
  threads : nat → nat
}.

Definition M (A : Type) : Type := World → Res A * World.

#[global] Instance M_ret : MRet M := λ A a w, (Ok a, w).
#[global] Instance M_bind : MBind M := λ A B f m w,
  match m w with
  | (Ok a, w') => f a w'
  | (Raise e, w') => (Raise e, w')
  end.

Definition lift {A} (r : Res A) : M A := λ w, (r, w).
Definition raise {A} (e : Exception) : M A := λ w, (Raise e, w).

(** [pd.DataFrame(o)] on a JSON object followed by the scripts' first
    [df['success']]: the keys become the columns, scalars are repeated along
    the lists; an object of scalars only has no index, lists of different
    lengths do not fit, and otherwise the frame is built and has no column
    [success].  (An object with a key [success] is a table by columns to
    pandas; it is outside the scripts' input type and the model treats it
    like the others.) *)
Definition object_error (o : list (string * JValue)) : Exception :=
  let lengths := omap (λ kv, match kv.2 with
                             | JList l => Some (length l)
                             | _ => None
                             end) o in
  match o, lengths with
  | [], _ => KeyError "success"
  | _, [] => ValueError
  | _, n :: ns =>
    if forallb (Nat.eqb n) ns then KeyError "success" else ValueError
  end.

(** [open(path, 'r')], [json.load] and what the scripts first do with the
    result when it is not an array of records.  A pickle is not text. *)
Definition json_load (path : string) : M (list TransactionRecord) := λ w,
  match files w !! path with
  | None => (Raise (FileNotFoundError path), w)
  | Some (JsonRecords data) => (Ok data, w)
  | Some Garbage => (Raise JSONDecodeError, w)
  | Some (Pickle _) => (Raise UnicodeDecodeError, w)
  | Some (JsonObject o) => (Raise (object_error o), w)
  end.

Definition written (path : string) (f : File) (w : World) : World :=
  {| files := <[path := f]> (files w); dirs := dirs w;
     denied := denied w; failing := failing w;
     entropy := entropy w; threads := threads w |}.

(** [open(path, 'w')] and the writes that follow: a path that cannot be
    opened is left alone; otherwise the file is created or emptied and then
    filled, and when the filling breaks off the file stays as it then is. *)
Definition write_file (path : string) (f : File) : M unit := λ w,
  if bool_decide (path ∈ denied w) then (Raise (OSError path), w)
  else match failing w !! path with
       | Some rest => (Raise (OSError path), written path rest w)
       | None => (Ok (), written path f w)
       end.

Definition made (path : string) (w : World) : World :=
  {| files := files w; dirs := {[path]} ∪ dirs w;
     denied := denied w; failing := failing w;
     entropy := entropy w; threads := threads w |}.

(** [os.makedirs(path, exist_ok=True)] *)
Definition os_makedirs (path : string) : M unit := λ w,
  if bool_decide (path ∈ denied w) then (Raise (OSError path), w)
  else (Ok (), made path w).

(** [joblib.dump(model, path)] *)
Definition joblib_dump (model : Model) (path : string) : M unit :=
  write_file path (Pickle model).

(** [with open(path, 'w') as f: json.dump(metadata, f, indent=2)] *)
Definition json_dump (metadata : list (string * JValue)) (path : string) : M unit :=
  write_file path (JsonObject metadata).

(** ** scikit-learn entry points *)

(** The world after a draw from the global generator. *)
Definition drawn (w : World) : World :=
  {| files := files w; dirs := dirs w; denied := denied w;
     failing := failing w; entropy := S (entropy w); threads := threads w |}.

(** [check_random_state(seed)] and the draw that follows: a seed gives a
    generator of its own; [None] hands out the global generator, and the
    draw moves its state on. *)
Definition check_random_state (seed : option nat) : M nat := λ w,
  match seed with
  | Some n => (Ok n, w)
  | None => (Ok (entropy w), drawn w)
  end.

(** The world after a parallel call. *)
Definition joined (w : World) : World :=
  {| files := files w; dirs := dirs w; denied := denied w;
     failing := failing w; entropy := entropy w;
     threads := λ i, threads w (S i) |}.

(** The order in which the threads of the parallel call at hand finish. *)
Definition scheduled : M nat := λ w, (Ok (threads w 0%nat), joined w).

(** [a[i]]; an index out of range raises. *)
Definition item {A} (l : list A) (i : nat) : Res A :=
  from_option Ok (Raise IndexError) (l !! i).

(** Integer-array indexing [a[idx]]. *)
Definition safe_indexing {A} (l : list A) (idx : list nat) : Res (list A) :=
  mapM (item l) idx.

(** [train_test_split(X, y, test_size=.., random_state=.., stratify=..)]:
    [X] and [y] must have the same number of rows;
    [n_test = ceil(test_size * n_samples)], [n_train = n_samples - n_test],
    an empty training set is an error; without stratification the test rows
    are the first [n_test] entries of a seeded permutation and the training
    rows the next [n_train].  The test size 0.2 is the rational 2/10: for a
    multiple of 5 the float product [0.2 * n] rounds to [n / 5] exactly, so
    the two ceilings agree. *)
Definition train_test_split (X : Matrix) (y : Vector) (test_size : Q)
    (random_state : option nat) (stratify : option Vector)
    : M (Matrix * Matrix * Vector * Vector) :=
  let n_samples := length X in
  if negb (n_samples =? length y)%nat then raise ValueError else
  let n_test := Z.to_nat (Qceiling (test_size * inject_Z (Z.of_nat n_samples))) in
  let n_train := (n_samples - n_test)%nat in
  if (n_train =? 0)%nat then raise ValueError else
  seed ← check_random_state random_state;
  '(train, test) ← lift (match stratify with
    | None =>
      let permutation := rng_permutation seed n_samples in
      Ok (take n_train (drop n_test permutation), take n_test permutation)
    | Some labels => stratified_indices seed labels n_train n_test
    end);
  X_train ← lift (safe_indexing X train);
  X_test ← lift (safe_indexing X test);
  y_train ← lift (safe_indexing y train);
  y_test ← lift (safe_indexing y test);
  mret (X_train, X_test, y_train, y_test).

(** [model = Kind(n_estimators=.., .., random_state=..)] then
    [model.fit(X, y)] *)
Definition fit (kind : ModelKind) (params : ForestParams) (X : Matrix) (y : Vector)
    : M Model :=
  seed ← check_random_state (random_state params);
  lift (forest_fit kind params seed X y).

(** [model.predict(X)] for a forest built with [n_jobs=..]: with one job the
    trees answer one after the other (order 0); with more the answers are
    added up in the order in which the worker threads finish. *)
Definition forest_predict (params : ForestParams) (model : Model) (X : Matrix)
    : M (list float) :=
  if (n_jobs params =? 1)%Z then mret (predict 0 model X)
  else order ← scheduled; mret (predict order model X).

(** [model.predict_proba(X)], likewise. *)
Definition forest_predict_proba (params : ForestParams) (model : Model)
    (X : Matrix) : M (list (list float)) :=
  if (n_jobs params =? 1)%Z then mret (predict_proba 0 model X)
  else order ← scheduled; mret (predict_proba order model X).

(** ** The module namespace a script leaves behind when it runs to its end *)

Record Globals := {
  g_data : list TransactionRecord;
  g_df : DataFrame;
  g_feature_columns : list string;
  g_X : Matrix;
  g_y : Vector;
  g_X_train : Matrix;
  g_X_test : Matrix;
  g_y_train : Vector;
  g_y_test : Vector;
  g_model : Model;
  g_model_path : string;
  g_metadata : list (string * JValue);
  g_metadata_path : string
}.

Definition len {A} (l : list A) : Z := Z.of_nat (length l).

(** What the feature-engineering lines of a script hand to the training
    lines: the frame, the feature list, [X] and [y]. *)
Definition Prepared : Type := DataFrame * list string * Matrix * Vector.

(** What the split hands on: [X_train], [X_test], [y_train], [y_test]. *)
Definition Parts : Type := Matrix * Matrix * Vector * Vector.

(** ** scripts/trainModel.py *)

(** Lines 20 to 50: frame, filters, one-hot flags, [X] and [y]. *)
Definition trainModel_features (data : list TransactionRecord) : Res Prepared :=
  let df := pd_DataFrame data in
  s ← getitem df "success";
  let df_success := df_select df (series_eq s (SBool true)) in
  s ← getitem df_success "computeUnitsUsed";
  let df_success := df_select df_success (notna s) in
  s ← getitem df_success "program";
  flag ← astype_int (BoolSeries (series_eq s (SStr JUPITER)));
  let df_success := setitem df_success "program_jupiter" flag in
  s ← getitem df_success "program";
  flag ← astype_int (BoolSeries (series_eq s (SStr RAYDIUM)));
  let df_success := setitem df_success "program_raydium" flag in
  let feature_columns :=
    [ "instructionCount"; "accountCount"; "dataSize"; "priorityFee";
      "networkCongestion"; "program_jupiter"; "program_raydium" ] in
  X ← df_values df_success feature_columns;
  s ← getitem df_success "computeUnitsUsed";
  y ← to_numeric s;
  Ok (df_success, feature_columns, X, y).

(** Lines 56 to 59: the split. *)
Definition trainModel_split (p : Prepared) : M Parts :=
  let '(_, _, X, y) := p in
  train_test_split X y (2 # 10) (Some 42%nat) None.

(** Lines 64 to 131: fit, evaluate, save the model, save the metadata. *)
Definition trainModel_fit (data : list TransactionRecord) (p : Prepared)
    (parts : Parts) : M Globals :=
  let '(df_success, feature_columns, X, y) := p in
  let '(X_train, X_test, y_train, y_test) := parts in
  let params :=
    {| n_estimators := 100; max_depth := 15; min_samples_split := 5;
       min_samples_leaf := 2; random_state := Some 42%nat; n_jobs := -1;
       class_weight := None |} in
  model ← fit RandomForestRegressor params X_train y_train;
  y_pred ← forest_predict params model X_test;
  let mae := mean_absolute_error y_test y_pred in
  let r2 := r2_score y_test y_pred in
  let model_path := "data/model.pkl" in
  joblib_dump model model_path;;
  let metadata :=
    [ ("feature_columns", JList feature_columns);
      ("model_type", JStr "RandomForestRegressor");
      ("n_estimators", JInt 100);
      ("train_samples", JInt (len X_train));
      ("test_samples", JInt (len X_test));
      ("mae", JFloat mae);
      ("r2_score", JFloat r2);
      ("accuracy_percent", JFloat (float_mul r2 100)) ] in
  let metadata_path := "data/model_metadata.json" in
  json_dump metadata metadata_path;;
  mret {| g_data := data; g_df := df_success; g_feature_columns := feature_columns;
          g_X := X; g_y := y; g_X_train := X_train; g_X_test := X_test;
          g_y_train := y_train; g_y_test := y_test; g_model := model;
          g_model_path := model_path; g_metadata := metadata;
          g_metadata_path := metadata_path |}.

(** Lines 56 to 131. *)
Definition trainModel_train (data : list TransactionRecord) (p : Prepared)
    : M Globals :=
  parts ← trainModel_split p;
  trainModel_fit data p parts.

Definition trainModel : M Globals :=
  data ← json_load "data/labeled_transactions.json";
  p ← lift (trainModel_features data);
  trainModel_train data p.

(** ** scripts/trainPriorityFeeML.py *)

(** Lines 20 to 55: frame, filters, the 50-row check, one-hot flags, median
    imputation, [X] and [y]. *)
Definition trainPriorityFeeML_features (data : list TransactionRecord)
    : Res Prepared :=
  let df := pd_DataFrame data in
  s ← getitem df "success";
  let df_success := df_select df (series_eq s (SBool true)) in
  s ← getitem df_success "priorityFee";
  mask ← series_gt s 0;
  let df_success := df_select df_success mask in
  if (df_len df_success <? 50)%nat then exit 1 else
  s ← getitem df_success "programId";
  flag ← astype_int (BoolSeries (series_eq s (SStr JUPITER)));
  let df_success := setitem df_success "program_jupiter" flag in
  s ← getitem df_success "programId";
  flag ← astype_int (BoolSeries (series_eq s (SStr RAYDIUM)));
  let df_success := setitem df_success "program_raydium" flag in
  s ← getitem df_success "computeUnitsUsed";
  s' ← getitem df_success "computeUnitsUsed";
  m ← median s';
  let df_success := setitem df_success "computeUnitsUsed" (fillna s m) in
  let feature_columns :=
    [ "instructionCount"; "accountCount"; "computeUnitsUsed"; "slotTime";
      "program_jupiter"; "program_raydium" ] in
  X ← df_values df_success feature_columns;
  s ← getitem df_success "priorityFee";
  y ← to_numeric s;
  Ok (df_success, feature_columns, X, y).

(** Lines 61 to 64: the split. *)
Definition trainPriorityFeeML_split (p : Prepared) : M Parts :=
  let '(_, _, X, y) := p in
  train_test_split X y (2 # 10) (Some 42%nat) None.

(** Lines 68 to 142: fit, evaluate, save the model, save the metadata. *)
Definition trainPriorityFeeML_fit (data : list TransactionRecord) (p : Prepared)
    (parts : Parts) : M Globals :=
  let '(df_success, feature_columns, X, y) := p in
  let '(X_train, X_test, y_train, y_test) := parts in
  let params :=
    {| n_estimators := 100; max_depth := 15; min_samples_split := 5;
       min_samples_leaf := 2; random_state := Some 42%nat; n_jobs := -1;
       class_weight := None |} in
  model ← fit RandomForestRegressor params X_train y_train;
  y_pred ← forest_predict params model X_test;
  let mae := mean_absolute_error y_test y_pred in
  let rmse := np_sqrt (mean_squared_error y_test y_pred) in
  let r2 := r2_score y_test y_pred in
  os_makedirs "models";;
  let model_path := "models/priority_fee_model.pkl" in
  joblib_dump model model_path;;
  let metadata :=
    [ ("model_type", JStr "RandomForestRegressor");
      ("n_estimators", JInt 100);
      ("feature_columns", JList feature_columns);
      ("train_samples", JInt (len X_train));
      ("test_samples", JInt (len X_test));
      ("mae", JFloat mae);
      ("rmse", JFloat rmse);
      ("r2_score", JFloat r2);
      ("accuracy_percent", JFloat (float_mul r2 100));
      ("trained_on_transactions", JInt (Z.of_nat (df_len df_success)));
      ("total_dataset", JInt (len data)) ] in
  let metadata_path := "models/priority_fee_metadata.json" in
  json_dump metadata metadata_path;;
  mret {| g_data := data; g_df := df_success; g_feature_columns := feature_columns;
          g_X := X; g_y := y; g_X_train := X_train; g_X_test := X_test;
          g_y_train := y_train; g_y_test := y_test; g_model := model;
          g_model_path := model_path; g_metadata := metadata;
          g_metadata_path := metadata_path |}.

(** Lines 61 to 142. *)
Definition trainPriorityFeeML_train (data : list TransactionRecord) (p : Prepared)
    : M Globals :=
  parts ← trainPriorityFeeML_split p;
  trainPriorityFeeML_fit data p parts.

Definition trainPriorityFeeML : M Globals :=
  data ← json_load "data/ml_training_data_2025-10-25T01-01-37.853Z.json";
  p ← lift (trainPriorityFeeML_features data);
  trainPriorityFeeML_train data p.

(** ** scripts/trainSuccessClassifier.py *)

(** Lines 20 to 50; the first [getitem] is the one of the composition
    report printed on lines 24 and 25. *)
Definition trainSuccessClassifier_features (data : list TransactionRecord)
    : Res Prepared :=
  let df := pd_DataFrame data in
  _ ← getitem df "success";
  s ← getitem df "programId";
  flag ← astype_int (BoolSeries (series_eq s (SStr JUPITER)));
  let df := setitem df "program_jupiter" flag in
  s ← getitem df "programId";
  flag ← astype_int (BoolSeries (series_eq s (SStr RAYDIUM)));
  let df := setitem df "program_raydium" flag in
  s ← getitem df "computeUnitsUsed";
  s' ← getitem df "computeUnitsUsed";
  m ← median s';
  let df := setitem df "computeUnitsUsed" (fillna s m) in
  let feature_columns :=
    [ "instructionCount"; "accountCount"; "computeUnitsUsed"; "priorityFee";
      "slotTime"; "program_jupiter"; "program_raydium" ] in
  X ← df_values df feature_columns;
  s ← getitem df "success";
  s ← astype_int s;
  y ← to_numeric s;
  Ok (df, feature_columns, X, y).

(** Lines 56 to 59: the split, stratified by the labels. *)
Definition trainSuccessClassifier_split (p : Prepared) : M Parts :=
  let '(_, _, X, y) := p in
  train_test_split X y (2 # 10) (Some 42%nat) (Some y).

(** Lines 63 to 146: fit, evaluate, save the model, save the metadata.  The
    probability column [predict_proba(X_test)[:, 1]] and the four cells of
    the confusion matrix are only printed, but indexing them can raise. *)
Definition trainSuccessClassifier_fit (data : list TransactionRecord)
    (p : Prepared) (parts : Parts) : M Globals :=
  let '(df, feature_columns, X, y) := p in
  let '(X_train, X_test, y_train, y_test) := parts in
  let params :=
    {| n_estimators := 100; max_depth := 15; min_samples_split := 5;
       min_samples_leaf := 2; random_state := Some 42%nat; n_jobs := -1;
       class_weight := Some "balanced" |} in
  model ← fit RandomForestClassifier params X_train y_train;
  y_pred ← forest_predict params model X_test;
  proba ← forest_predict_proba params model X_test;
  y_pred_proba ← lift (mapM (λ row, item row 1) proba);
  let accuracy := accuracy_score y_test y_pred in
  let precision := precision_score y_test y_pred in
  let recall := recall_score y_test y_pred in
  let f1 := f1_score y_test y_pred in
  let cm := confusion_matrix y_test y_pred in
  true_neg ← lift (row ← item cm 0; item row 0);
  false_pos ← lift (row ← item cm 0; item row 1);
  false_neg ← lift (row ← item cm 1; item row 0);
  true_pos ← lift (row ← item cm 1; item row 1);
  os_makedirs "models";;
  let model_path := "models/success_classifier.pkl" in
  joblib_dump model model_path;;
  let metadata :=
    [ ("model_type", JStr "RandomForestClassifier");
      ("n_estimators", JInt 100);
      ("feature_columns", JList feature_columns);
      ("train_samples", JInt (len X_train));
      ("test_samples", JInt (len X_test));
      ("accuracy", JFloat accuracy);
      ("precision", JFloat precision);
      ("recall", JFloat recall);
      ("f1_score", JFloat f1);
      ("accuracy_percent", JFloat (float_mul accuracy 100));
      ("trained_on_transactions", JInt (len data)) ] in
  let metadata_path := "models/success_classifier_metadata.json" in
  json_dump metadata metadata_path;;
  mret {| g_data := data; g_df := df; g_feature_columns := feature_columns;
          g_X := X; g_y := y; g_X_train := X_train; g_X_test := X_test;
          g_y_train := y_train; g_y_test := y_test; g_model := model;
          g_model_path := model_path; g_metadata := metadata;
          g_metadata_path := metadata_path |}.

(** Lines 56 to 146. *)
Definition trainSuccessClassifier_train (data : list TransactionRecord)
    (p : Prepared) : M Globals :=
  parts ← trainSuccessClassifier_split p;
  trainSuccessClassifier_fit data p parts.

Definition trainSuccessClassifier : M Globals :=
  data ← json_load "data/ml_training_data_2025-10-25T01-01-37.853Z.json";
  p ← lift (trainSuccessClassifier_features data);
  trainSuccessClassifier_train data p.

(** ** The three scripts, side by side *)

Inductive Script := TrainModel | TrainPriorityFeeML | TrainSuccessClassifier.

Definition run (s : Script) : M Globals :=
  match s with
  | TrainModel => trainModel
  | TrainPriorityFeeML => trainPriorityFeeML
  | TrainSuccessClassifier => trainSuccessClassifier
  end.

Definition features (s : Script) : list TransactionRecord → Res Prepared :=
  match s with
  | TrainModel => trainModel_features
  | TrainPriorityFeeML => trainPriorityFeeML_features
  | TrainSuccessClassifier => trainSuccessClassifier_features
  end.

Definition input_path (s : Script) : string :=
  match s with
  | TrainModel => "data/labeled_transactions.json"
  | _ => "data/ml_training_data_2025-10-25T01-01-37.853Z.json"
  end.

Definition model_path (s : Script) : string :=
  match s with
  | TrainModel => "data/model.pkl"
  | TrainPriorityFeeML => "models/priority_fee_model.pkl"
  | TrainSuccessClassifier => "models/success_classifier.pkl"
  end.

Definition metadata_path (s : Script) : string :=
  match s with
  | TrainModel => "data/model_metadata.json"
  | TrainPriorityFeeML => "models/priority_fee_metadata.json"
  | TrainSuccessClassifier => "models/success_classifier_metadata.json"
  end.

Definition model_kind (s : Script) : ModelKind :=
  match s with
  | TrainSuccessClassifier => RandomForestClassifier
  | _ => RandomForestRegressor
  end.

(** The key under which a script reads the program identifier. *)
Definition program_key (s : Script) : string :=
  match s with TrainModel => "program" | _ => "programId" end.

(** The split of a script, and the lines that follow it. *)
Definition split_lines (s : Script) : Prepared → M Parts :=
  match s with
  | TrainModel => trainModel_split
  | TrainPriorityFeeML => trainPriorityFeeML_split
  | TrainSuccessClassifier => trainSuccessClassifier_split
  end.

Definition fit_lines (s : Script)
    : list TransactionRecord → Prepared → Parts → M Globals :=
  match s with
  | TrainModel => trainModel_fit
  | TrainPriorityFeeML => trainPriorityFeeML_fit
  | TrainSuccessClassifier => trainSuccessClassifier_fit
  end.

(** The world of a run once the forest has answered (one parallel call in
    the regression scripts, two in the classifier), and the world in which
    it comes to its first write. *)
Definition evaluated (s : Script) (w : World) : World :=
  match s with
  | TrainSuccessClassifier => joined (joined w)
  | _ => joined w
  end.

Definition staged (s : Script) (w : World) : World :=
  match s with
  | TrainModel => evaluated s w
  | _ => made "models" (evaluated s w)
  end.

(** The metadata keys that hold a metric computed from the predictions. *)
Definition metric_keys : list string :=
  [ "mae"; "rmse"; "r2_score"; "accuracy_percent";
    "accuracy"; "precision"; "recall"; "f1_score" ].

End Scripts.

(** ** The scripts record by record, side by side

    The records a script trains on, and the feature vector and the target it
    derives from one of them; [rows] is the list of surviving records, whose
    median fills the absent compute units. *)

Definition surviving (s : Script) (data : list TransactionRecord)
    : list TransactionRecord :=
  match s with
  | TrainModel => trainModel_rows data
  | TrainPriorityFeeML => priorityFee_rows data
  | TrainSuccessClassifier => data
  end.

Definition feature_vector (s : Script) (rows : list TransactionRecord)
    (r : TransactionRecord) : list (option Q) :=
  match s with
  | TrainModel => trainModel_vector r
  | TrainPriorityFeeML => priorityFee_vector (column_median rows) r
  | TrainSuccessClassifier => classifier_vector (column_median rows) r
  end.

Definition target (s : Script) (r : TransactionRecord) : option Q :=
  match s with
  | TrainModel => computeUnitsUsed r
  | TrainPriorityFeeML => Some (priorityFee r)
  | TrainSuccessClassifier => Some (bool_to_Q (success r))
  end.

(** ** The composition report of scripts/trainSuccessClassifier.py *)

(** [series.sum()]: the number of [True] cells of a boolean column, the sum
    of the cells of a numeric one that are not NaN; strings are joined. *)
Definition series_sum (s : Series) : Scalar :=
  match s with
  | BoolSeries l => SNum (inject_Z (Z.of_nat (length (List.filter id l))))
  | NumSeries l => SNum (foldr Qplus 0%Q (omap id l))
  | StrSeries l => SStr (foldr String.append "" l)
  end.

(** [~series]: the negation of a boolean column; the operator is not defined
    on float64 cells and on strings. *)
Definition series_invert (s : Series) : Res Series :=
  match s with
  | BoolSeries l => Ok (BoolSeries (negb <$> l))
  | _ => Raise TypeError
  end.

(** Lines 23 to 25: the three numbers behind the report,
    [df['success'].sum()], [(~df['success']).sum()] and [len(df)]; the
    percentages printed beside them are the two counts over [len(df)]. *)
Definition composition (data : list TransactionRecord)
    : Res (Scalar * Scalar * nat) :=
  let df := pd_DataFrame data in
  s ← getitem df "success";
  let succeeded := series_sum s in
  s ← getitem df "success";
  s ← series_invert s;
  let failed := series_sum s in
  Ok (succeeded, failed, df_len df).

(** ** A small instance of the library, for running the scripts on data

    The generator rotates the row numbers by the seed.  A forest is the
    training set it was fitted on, each training target being the answer of
    one tree; it predicts the mean of these answers, added up in the given
    order in a small float format that keeps three binary digits, so that
    the order shows in the sum as it does in float64.  The metrics are the
    usual formulas, in exact arithmetic. *)

Definition rotation (seed n : nat) : list nat :=
  drop (seed `mod` S n) (seq 0 n) ++ take (seed `mod` S n) (seq 0 n).

Definition toy_round (x : Q) : Q :=
  let z := Qfloor (x * inject_Z (2 ^ 40)) in
  let e := Z.log2 (Z.abs z) in
  let u := (2 ^ (e - 2))%Z in
  Qred (inject_Z (if (e <=? 2)%Z then z else (z / u) * u) / inject_Z (2 ^ 40)).

Definition toy_sum (order : nat) (answers : list Q) : Q :=
  let n := length answers in
  foldl (λ acc v, toy_round (acc + v)) 0%Q
        (drop (order `mod` S n) answers ++ take (order `mod` S n) answers).

Definition toy_predict (order : nat) (model : Matrix * Vector) (X : Matrix)
    : list Q :=
  let answers := omap id model.2 in
  let mean := Qred (toy_sum order answers / inject_Z (Z.of_nat (length answers))) in
  (λ _, mean) <$> X.

Definition toy_mean (l : list Q) : Q :=
  Qred (foldr Qplus 0%Q l / inject_Z (Z.of_nat (length l))).

Definition toy_errors (y : Vector) (y_pred : list Q) : list Q :=
  zip_with (λ a p, Qabs (from_option id 0%Q a - p)) y y_pred.

(** The cells of the confusion matrix: the labels and the answers are read
    as classes by comparing them with one half. *)
Definition toy_count (actual predicted : bool) (y : Vector) (y_pred : list Q) : Z :=
  Z.of_nat (length (List.filter id
    (zip_with (λ a p, Bool.eqb (Qle_bool (1 # 2) (from_option id 0%Q a)) actual
                      && Bool.eqb (Qle_bool (1 # 2) p) predicted) y y_pred))).

Definition toy_ratio (a b : Z) : Q :=
  if (b =? 0)%Z then 0%Q else Qred (inject_Z a / inject_Z b).

#[global] Instance toy_sklearn : Sklearn.
Proof.
  refine {|
  Model := Matrix * Vector;
  float := Q;
  rng_permutation := rotation;
  rng_permutation_perm := _;
  stratified_indices := λ _ _ n_train n_test,
    Ok (seq n_test n_train, seq 0 n_test);
  forest_fit := λ _ _ _ X y, Ok (X, y);
  predict := toy_predict;
  predict_proba := λ order model X,
    (λ p, [Qred (1 - p); p]) <$> toy_predict order model X;
  confusion_matrix := λ y y_pred,
    [ [toy_count false false y y_pred; toy_count false true y y_pred];
      [toy_count true false y y_pred; toy_count true true y y_pred] ];
  mean_absolute_error := λ y y_pred, toy_mean (toy_errors y y_pred);
  mean_squared_error := λ y y_pred,
    toy_mean ((λ e, e * e)%Q <$> toy_errors y y_pred);
  r2_score := λ y y_pred,
    let mean := toy_mean (from_option id 0%Q <$> y) in
    let total := foldr Qplus 0%Q ((λ a, (a - mean) * (a - mean))%Q
                                    <$> (from_option id 0%Q <$> y)) in
    let residual := foldr Qplus 0%Q ((λ e, e * e)%Q <$> toy_errors y y_pred) in
    if Qeq_bool total 0 then (if Qeq_bool residual 0 then 1%Q else 0%Q)
    else Qred (1 - residual / total);
  accuracy_score := λ y y_pred,
    toy_ratio (toy_count false false y y_pred + toy_count true true y y_pred)
              (Z.of_nat (length y_pred));
  precision_score := λ y y_pred,
    toy_ratio (toy_count true true y y_pred)
              (toy_count true true y y_pred + toy_count false true y y_pred);
  recall_score := λ y y_pred,
    toy_ratio (toy_count true true y y_pred)
              (toy_count true true y y_pred + toy_count true false y y_pred);
  f1_score := λ y y_pred,
    toy_ratio (2 * toy_count true true y y_pred)
              (2 * toy_count true true y y_pred + toy_count false true y y_pred
               + toy_count true false y y_pred);
  np_sqrt := λ x,
    Qred (inject_Z (Z.sqrt (Qfloor (x * inject_Z (10 ^ 12)))) / inject_Z (10 ^ 6));
  float_mul := λ x q, Qred (x * q)
  |}.
  intros seed n. unfold rotation. by rewrite (comm (++)), take_drop.
Defined.

(** ** Sample inputs *)

(** A record with every key; [cu] is the number under [computeUnitsUsed],
    or [None] for [null]. *)
Definition sample (ok : bool) (p : string) (fee : Q) (cu : option Q)
    : TransactionRecord :=
  {| success := ok; program := p; instructionCount := 3; accountCount := 7;
     dataSize := 120; priorityFee := fee; networkCongestion := 1 # 2;
     computeUnitsUsed_entry := from_option Number Null cu; slotTime := 400 |}.

(** Ten records: eight successes with compute units (five Jupiter, three
    Raydium) and two failures of some other program. *)
Definition ten_records : list TransactionRecord :=
  replicate 5 (sample true JUPITER (1 # 1000) (Some 5000%Q)) ++
  replicate 3 (sample true RAYDIUM (2 # 1000) (Some 7000%Q)) ++
  replicate 2 (sample false "11111111111111111111111111111111" 0 None).

(** Ten records, successes and failures in turn. *)
Definition ten_mixed : list TransactionRecord :=
  mjoin (replicate 5 [ sample true JUPITER (1 # 1000) (Some 5000%Q);
                       sample false RAYDIUM 0 None ]).

(** Sixty fee-paying successes, a third of them without compute units. *)
Definition sixty_records : list TransactionRecord :=
  replicate 20 (sample true JUPITER (1 # 1000) (Some 5000%Q)) ++
  replicate 20 (sample true RAYDIUM (2 # 1000) None) ++
  replicate 20 (sample true "11111111111111111111111111111111" (3 # 1000) (Some 9000%Q)).

(** Fifty fee-paying successes, none of which recorded its compute units. *)
Definition fifty_without_cu : list TransactionRecord :=
  replicate 50 (sample true JUPITER (1 # 1000) None).

(** One success with compute units and one failure. *)
Definition one_survivor : list TransactionRecord :=
  [ sample true JUPITER (1 # 1000) (Some 5000%Q);
    sample false RAYDIUM 0 None ].

(** Eight successes whose compute units all differ. *)
Definition eight_varied : list TransactionRecord :=
  (λ k : nat, sample true JUPITER (1 # 1000)
                (Some (inject_Z (1000 * Z.of_nat (S k))))) <$> seq 0 8.

(** Fifty fee-paying successes without the key [computeUnitsUsed]. *)
Definition fifty_without_key : list TransactionRecord :=
  replicate 50
    {| success := true; program := JUPITER; instructionCount := 3;
       accountCount := 7; dataSize := 120; priorityFee := 1 # 1000;
       networkCongestion := 1 # 2; computeUnitsUsed_entry := NoKey;
       slotTime := 400 |}.

Definition world_of (path : string) (data : list TransactionRecord)
    (no_write : gset string) : World :=
  {| files := {[ path := JsonRecords data ]}; dirs := ∅;
     denied := no_write; failing := ∅; entropy := 0; threads := λ _, 0%nat |}.

Definition sample_data (s : Script) : list TransactionRecord :=
  match s with
  | TrainModel => ten_records
  | TrainPriorityFeeML => sixty_records
  | TrainSuccessClassifier => ten_mixed
  end.

Definition sample_world (s : Script) : World :=
  world_of (input_path s) (sample_data s) ∅.

(** The same input in a different world: another file, a directory, a path
    that cannot be written, another entropy, and threads that finish in
    another order. *)
Definition other_world (s : Script) : World :=
  {| files := <[ "notes.txt" := Garbage ]>
                {[ input_path s := JsonRecords (sample_data s) ]};
     dirs := {[ "data" ]}; denied := {[ "tmp" ]}; failing := ∅;
     entropy := 2024; threads := λ i, S i |}.

(** The input [data] at the script's path in a world whose threads finish
    in the order [order]. *)
Definition world_in_order (s : Script) (data : list TransactionRecord)
    (order : nat) : World :=
  {| files := {[ input_path s := JsonRecords data ]}; dirs := ∅;
     denied := ∅; failing := ∅; entropy := 0; threads := λ _, order |}.

(** A world without any file. *)
Definition empty_world : World :=
  {| files := ∅; dirs := ∅; denied := ∅; failing := ∅; entropy := 0;
     threads := λ _, 0%nat |}.


(** * Properties *)

(** ** Column operations against the record-level reading *)

Lemma select_fmap {A B} (f : A → B) (p : A → bool) (l : list A) :
  select (f <$> l) (p <$> l) = f <$> List.filter p l.
Proof.
  induction l as [|x l IH]; [done|]. cbn. destruct (p x); cbn; by rewrite IH.
Qed.

Lemma omap_id_fmap {A B} (f : A → option B) (l : list A) :
  omap id (f <$> l) = omap f l.
Proof.
  induction l as [|x l IH]; [done|]. cbn. destruct (f x); cbn; by rewrite IH.
Qed.

Lemma df_select_columns_of (p : TransactionRecord → bool) cu data :
  df_select (columns_of cu data) (p <$> data) = columns_of cu (List.filter p data).
Proof.
  unfold df_select, columns_of. destruct cu; cbn; by rewrite !select_fmap.
Qed.

Ltac normalise_columns :=
  repeat (rewrite <- !list_fmap_compose; rewrite ?select_fmap);
  change ((λ x : option Q, bool_decide (is_Some x)) ∘ computeUnitsUsed) with has_cu;
  change ((λ x : bool, Bool.eqb x true) ∘ success) with is_success;
  change ((λ x : option Q, from_option (Qltb 0) false x) ∘ (Some ∘ priorityFee))
    with has_fee.

Ltac by_rows rows :=
  repeat f_equal; induction rows; cbn; [done | by f_equal].

(** Without the column [computeUnitsUsed] (no record has the key) each
    script raises [KeyError] at its first [df['computeUnitsUsed']]; with it
    the feature lines compute the record-level reading. *)
Lemma trainModel_features_rows data :
  data ≠ [] →
  trainModel_features data =
    if existsb has_computeUnitsUsed data
    then Ok (with_flags (trainModel_rows data),
             [ "instructionCount"; "accountCount"; "dataSize"; "priorityFee";
               "networkCongestion"; "program_jupiter"; "program_raydium" ],
             trainModel_vector <$> trainModel_rows data,
             computeUnitsUsed <$> trainModel_rows data)
    else Raise (KeyError "computeUnitsUsed").
Proof.
  intros Hne. unfold trainModel_features, trainModel_rows.
  replace (pd_DataFrame data)
    with (columns_of (existsb has_computeUnitsUsed data) data)
    by (by destruct data).
  destruct (existsb has_computeUnitsUsed data); [|done].
  cbn. normalise_columns.
  generalize (List.filter has_cu (List.filter is_success data)) as rows.
  intros rows. unfold with_flags, columns_of. rewrite <- ?list_fmap_compose.
  by_rows rows.
Qed.

Lemma trainPriorityFeeML_features_rows data :
  data ≠ [] →
  trainPriorityFeeML_features data =
    let rows := priorityFee_rows data in
    if (length rows <? 50)%nat then exit 1
    else if existsb has_computeUnitsUsed data
    then Ok (imputed_frame rows,
             [ "instructionCount"; "accountCount"; "computeUnitsUsed"; "slotTime";
               "program_jupiter"; "program_raydium" ],
             priorityFee_vector (column_median rows) <$> rows,
             (Some ∘ priorityFee) <$> rows)
    else Raise (KeyError "computeUnitsUsed").
Proof.
  intros Hne. unfold trainPriorityFeeML_features, priorityFee_rows.
  replace (pd_DataFrame data)
    with (columns_of (existsb has_computeUnitsUsed data) data)
    by (by destruct data).
  destruct (existsb has_computeUnitsUsed data).
  2: { cbn -[Nat.ltb]. normalise_columns. rewrite length_fmap.
       by destruct (_ <? 50)%nat. }
  cbn -[median_of Nat.ltb]. normalise_columns.
  generalize (List.filter has_fee (List.filter is_success data)) as rows.
  intros rows. rewrite length_fmap.
  destruct (length rows <? 50)%nat; [done|].
  cbn -[median_of]. rewrite omap_id_fmap.
  unfold imputed_frame, with_flags, columns_of, column_median.
  cbn -[median_of]. rewrite <- ?list_fmap_compose.
  generalize (median_of (omap computeUnitsUsed rows)) as m. intros m.
  by_rows rows.
Qed.

Lemma trainSuccessClassifier_features_rows data :
  data ≠ [] →
  trainSuccessClassifier_features data =
    if existsb has_computeUnitsUsed data
    then Ok (imputed_frame data,
             [ "instructionCount"; "accountCount"; "computeUnitsUsed";
               "priorityFee"; "slotTime"; "program_jupiter"; "program_raydium" ],
             classifier_vector (column_median data) <$> data,
             (Some ∘ bool_to_Q ∘ success) <$> data)
    else Raise (KeyError "computeUnitsUsed").
Proof.
  intros Hne. unfold trainSuccessClassifier_features.
  replace (pd_DataFrame data)
    with (columns_of (existsb has_computeUnitsUsed data) data)
    by (by destruct data).
  destruct (existsb has_computeUnitsUsed data); [|done].
  cbn -[median_of]. normalise_columns. rewrite omap_id_fmap.
  unfold imputed_frame, with_flags, columns_of, column_median.
  cbn -[median_of]. rewrite <- ?list_fmap_compose.
  generalize (median_of (omap computeUnitsUsed data)) as m. intros m.
  clear Hne. by_rows data.
Qed.

(** An empty record collection has no [success] column. *)
Lemma features_of_nothing :
  trainModel_features [] = Raise (KeyError "success")
  ∧ trainPriorityFeeML_features [] = Raise (KeyError "success")
  ∧ trainSuccessClassifier_features [] = Raise (KeyError "success").
Proof. done. Qed.

(** What the feature lines return, for all three scripts at once. *)
Lemma features_Ok s data df cols X y :
  features s data = Ok (df, cols, X, y) →
  ∃ rows m,
    df = match s with TrainModel => with_flags rows | _ => imputed_frame rows end
    ∧ X = match s with
          | TrainModel => trainModel_vector <$> rows
          | TrainPriorityFeeML => priorityFee_vector m <$> rows
          | TrainSuccessClassifier => classifier_vector m <$> rows
          end
    ∧ length y = length rows.
Proof.
  intros Hfeat. assert (data ≠ []) as Hne by (by destruct s; intros ->).
  destruct s; cbn [features] in Hfeat.
  - rewrite trainModel_features_rows in Hfeat by done.
    destruct (existsb _ _); [|done]. injection Hfeat as <- <- <- <-.
    eexists _, None. by rewrite length_fmap.
  - rewrite trainPriorityFeeML_features_rows in Hfeat by done. cbv zeta in Hfeat.
    destruct (_ <? _)%nat; [done|]. destruct (existsb _ _); [|done].
    injection Hfeat as <- <- <- <-.
    eexists _, _. by rewrite length_fmap.
  - rewrite trainSuccessClassifier_features_rows in Hfeat by done.
    destruct (existsb _ _); [|done].
    injection Hfeat as <- <- <- <-. eexists _, _. by rewrite length_fmap.
Qed.


(** ** Integer-array indexing and the size of the test set *)

Lemma item_Ok {A} (l : list A) i x : item l i = Ok x ↔ l !! i = Some x.
Proof. unfold item. destruct (l !! i); cbn; split; congruence. Qed.

Lemma safe_indexing_Ok {A} (l : list A) idx out :
  safe_indexing l idx = Ok out ↔ Forall2 (λ i x, l !! i = Some x) idx out.
Proof.
  unfold safe_indexing. split.
  - revert out. induction idx as [|i idx IH]; intros out; cbn.
    + intros [= <-]. constructor.
    + destruct (item l i) as [x|e] eqn:Hi; [|done]. apply item_Ok in Hi.
      destruct (mapM (item l) idx) as [xs|e]; [|done].
      intros [= <-]. constructor; [done|]. by apply IH.
  - induction 1 as [|i x idx out Hi _ IH]; [done|].
    apply item_Ok in Hi. cbn. by rewrite Hi, IH.
Qed.

Lemma safe_indexing_omap {A} (l : list A) idx out :
  safe_indexing l idx = Ok out → out = omap (λ i, l !! i) idx.
Proof.
  rewrite safe_indexing_Ok. induction 1 as [|i x idx out Hi _ IH]; [done|].
  cbn. rewrite Hi. cbn. by f_equal.
Qed.

Lemma omap_lookup_seq {A} (l : list A) :
  omap (λ i, l !! i) (seq 0 (length l)) = l.
Proof.
  induction l as [|x l IH] using rev_ind; [done|].
  rewrite length_app, Nat.add_1_r, seq_S, omap_app. cbn.
  rewrite lookup_app_r, Nat.sub_diag by done. cbn.
  f_equal. etransitivity; [|exact IH]. apply list_omap_ext.
  apply Forall2_same_length_lookup_2; [done|].
  intros i a b Ha Hb. assert (a = b) as -> by congruence.
  apply lookup_seq in Ha as [-> Hi]. cbn. by rewrite lookup_app_l.
Qed.

Lemma safe_indexing_length {A} (l : list A) idx out :
  safe_indexing l idx = Ok out → length out = length idx.
Proof. rewrite safe_indexing_Ok. intros F. symmetry. by eapply Forall2_length. Qed.

Lemma safe_indexing_elem_of {A} (l : list A) idx out x :
  safe_indexing l idx = Ok out → x ∈ out → x ∈ l.
Proof.
  rewrite safe_indexing_Ok. intros F Hx.
  apply list_elem_of_lookup in Hx as [j Hj].
  destruct (Forall2_lookup_r _ _ _ _ _ F Hj) as (i & _ & Hi).
  by eapply list_elem_of_lookup_2.
Qed.

(** [ceil(0.2 * n)] is [(n + 4) / 5]. *)
Lemma ceiling_fifth (n : nat) :
  Z.to_nat (Qceiling ((2 # 10) * inject_Z (Z.of_nat n))) = ((n + 4) / 5)%nat.
Proof.
  unfold Qceiling, Qfloor, Qopp, Qmult, inject_Z. cbn [Qnum Qden].
  change (Z.pos (10 * 1)) with 10%Z.
  apply Nat2Z.inj. rewrite Nat2Z.inj_div, Nat2Z.inj_add.
  rewrite Z2Nat.id by (Z.div_mod_to_equations; lia).
  Z.div_mod_to_equations; lia.
Qed.

Lemma fifth_bounds (n : nat) :
  (n ≤ 5 * ((n + 4) / 5) < n + 5)%nat.
Proof.
  pose proof (Nat.div_mod_eq (n + 4) 5).
  pose proof (Nat.mod_upper_bound (n + 4) 5 ltac:(lia)). lia.
Qed.

Lemma safe_indexing_total {A} (l : list A) n idx :
  length l = n →
  Forall (λ i, i < n)%nat idx → ∃ out, safe_indexing l idx = Ok out.
Proof.
  intros <-. induction 1 as [|i idx Hi _ [out IH]]; [by eexists|].
  destruct (lookup_lt_is_Some_2 l i Hi) as [x Hx].
  exists (x :: out). apply safe_indexing_Ok. constructor; [done|].
  by apply safe_indexing_Ok.
Qed.

(** ** The median and the imputed cell *)

Lemma median_of_None (l : list Q) : median_of l = None ↔ l = [].
Proof.
  split; [|by intros ->].
  unfold median_of. pose proof (merge_sort_Permutation Qle l) as Hp.
  apply Permutation_length in Hp. revert Hp.
  generalize (merge_sort Qle l) as s. intros s Hlen Hnone.
  destruct l as [|x l]; [done|]. exfalso. cbn in Hlen.
  assert (0 < length s)%nat as Hpos by lia.
  assert (length s / 2 < length s)%nat as Hmid
    by (apply Nat.div_lt; lia).
  destruct (lookup_lt_is_Some_2 s (length s / 2)%nat Hmid) as [y Hy].
  destruct (Nat.even (length s)).
  - assert (length s / 2 - 1 < length s)%nat as Hlow by lia.
    destruct (lookup_lt_is_Some_2 s _ Hlow) as [z Hz].
    by rewrite Hz, Hy in Hnone.
  - by rewrite Hy in Hnone.
Qed.

Lemma column_median_None rows :
  column_median rows = None ↔ Forall (λ r, computeUnitsUsed r = None) rows.
Proof.
  unfold column_median. rewrite median_of_None.
  induction rows as [|r rows IH]; [by split|].
  cbn. rewrite Forall_cons. destruct (computeUnitsUsed r); cbn.
  - split; [done | by intros [? _]].
  - rewrite IH. split; [done | by intros [_ ?]].
Qed.

(** With one value present the imputed column has no absent cell, and each
    absent cell holds the median of the present ones. *)
Lemma imputed_present rows r :
  ¬ Forall (λ r, computeUnitsUsed r = None) rows →
  is_Some (imputed (column_median rows) r)
  ∧ (computeUnitsUsed r = None →
     imputed (column_median rows) r = column_median rows).
Proof.
  intros Hsome. rewrite <- column_median_None in Hsome.
  unfold imputed, fill. destruct (computeUnitsUsed r); [by eauto|].
  split; [|done]. by destruct (column_median rows); eauto.
Qed.

(** With no value present the median is NaN and [fillna] changes nothing. *)
Lemma imputed_absent rows r :
  Forall (λ r, computeUnitsUsed r = None) rows →
  r ∈ rows → imputed (column_median rows) r = None.
Proof.
  intros Hall Hr. pose proof Hall as Hm. rewrite <- column_median_None in Hm.
  rewrite Forall_forall in Hall. unfold imputed, fill. by rewrite Hm, (Hall r Hr).
Qed.

(** ** Stepping through a run *)

Section Stepping.
Context `{Sklearn}.

Lemma bind_Ok {A B} (m : M A) (f : A → M B) w b w' :
  (m ≫= f) w = (Ok b, w') → ∃ a w1, m w = (Ok a, w1) ∧ f a w1 = (Ok b, w').
Proof.
  unfold mbind, M_bind. destruct (m w) as [[a|e] w1]; [eauto|discriminate].
Qed.

Lemma bind_Raise {A B} (m : M A) (f : A → M B) w e w' :
  (m ≫= f) w = (Raise e, w') →
  m w = (Raise e, w') ∨ ∃ a w1, m w = (Ok a, w1) ∧ f a w1 = (Raise e, w').
Proof.
  unfold mbind, M_bind. destruct (m w) as [[a|e1] w1]; [eauto|].
  intros [= -> ->]. by left.
Qed.

Lemma lift_Ok {A} (r : Res A) w a w1 : lift r w = (Ok a, w1) → r = Ok a ∧ w1 = w.
Proof. unfold lift. by intros [= -> ->]. Qed.

Lemma lift_Raise {A} (r : Res A) w e w1 :
  lift r w = (Raise e, w1) → r = Raise e ∧ w1 = w.
Proof. unfold lift. by intros [= -> ->]. Qed.

Lemma json_load_Ok path w data w1 :
  json_load path w = (Ok data, w1) →
  files w !! path = Some (JsonRecords data) ∧ w1 = w.
Proof.
  unfold json_load. destruct (files w !! path) as [[]|]; naive_solver.
Qed.

Lemma json_load_world path w : (json_load path w).2 = w.
Proof. unfold json_load. by destruct (files w !! path) as [[]|]. Qed.

(** A seeded split and a seeded fit leave the world as it is. *)
Lemma train_test_split_world X y ts seed st w :
  (train_test_split X y ts (Some seed) st w).2 = w.
Proof.
  unfold train_test_split.
  destruct (negb _); [done|]. destruct (_ =? 0)%nat; [done|].
  unfold mbind, M_bind, check_random_state, lift, mret, M_ret. cbn.
  destruct (match st with None => _ | Some _ => _ end) as [[train test]|]; [|done].
  repeat (match goal with |- context [safe_indexing ?l ?i] =>
            destruct (safe_indexing l i) end; cbn; try done).
Qed.

Lemma train_test_split_Ok X y ts seed st w r w1 :
  train_test_split X y ts (Some seed) st w = (Ok r, w1) → w1 = w.
Proof.
  intros E. pose proof (train_test_split_world X y ts seed st w) as W.
  by rewrite E in W.
Qed.

Lemma fit_world kind params seed X y w :
  random_state params = Some seed → (fit kind params X y w).2 = w.
Proof.
  intros Hseed. unfold fit, mbind, M_bind, check_random_state, lift.
  rewrite Hseed. by destruct (forest_fit _ _ _ _ _).
Qed.

Lemma fit_Ok kind params seed X y w m w1 :
  random_state params = Some seed →
  fit kind params X y w = (Ok m, w1) →
  forest_fit kind params seed X y = Ok m ∧ w1 = w.
Proof.
  intros Hseed. unfold fit, mbind, M_bind, check_random_state, lift.
  rewrite Hseed. by intros [= -> ->].
Qed.

Lemma fit_Raise kind params seed X y w e w1 :
  random_state params = Some seed →
  fit kind params X y w = (Raise e, w1) →
  forest_fit kind params seed X y = Raise e ∧ w1 = w.
Proof.
  intros Hseed. unfold fit, mbind, M_bind, check_random_state, lift.
  rewrite Hseed. by intros [= -> ->].
Qed.

(** A parallel prediction takes the next order of the world and never
    fails. *)
Lemma forest_predict_inv params model X w :
  n_jobs params ≠ 1%Z →
  forest_predict params model X w
  = (Ok (predict (threads w 0%nat) model X), joined w).
Proof.
  intros Hjobs. unfold forest_predict.
  by destruct (Z.eqb_spec (n_jobs params) 1).
Qed.

Lemma forest_predict_proba_inv params model X w :
  n_jobs params ≠ 1%Z →
  forest_predict_proba params model X w
  = (Ok (predict_proba (threads w 0%nat) model X), joined w).
Proof.
  intros Hjobs. unfold forest_predict_proba.
  by destruct (Z.eqb_spec (n_jobs params) 1).
Qed.

Lemma write_file_Ok path f w u w1 :
  write_file path f w = (Ok u, w1) →
  (path ∉ denied w) ∧ failing w !! path = None ∧ w1 = written path f w.
Proof.
  unfold write_file. case_bool_decide; [done|].
  destruct (failing w !! path); [done|]. by intros [= <- <-].
Qed.

Lemma write_file_Raise path f w e w1 :
  write_file path f w = (Raise e, w1) →
  e = OSError path
  ∧ (w1 = w
     ∨ ∃ rest, failing w !! path = Some rest ∧ w1 = written path rest w).
Proof.
  unfold write_file. case_bool_decide.
  - intros [= <- <-]. split; [done|by left].
  - destruct (failing w !! path) as [rest|] eqn:E; [|done].
    intros [= <- <-]. split; [done|]. right. by exists rest.
Qed.

Lemma os_makedirs_Ok path w u w1 :
  os_makedirs path w = (Ok u, w1) → (path ∉ denied w) ∧ w1 = made path w.
Proof.
  unfold os_makedirs. case_bool_decide; [done|]. by intros [= <- <-].
Qed.

Lemma os_makedirs_Raise path w e w1 :
  os_makedirs path w = (Raise e, w1) → e = OSError path ∧ w1 = w.
Proof.
  unfold os_makedirs. case_bool_decide; [|done]. by intros [= <- <-].
Qed.

End Stepping.

(** ** The split *)

Section Split.
Context `{Sklearn}.

(** What a split that returned has done. *)
Lemma train_test_split_inv X y ts rs st w X_train X_test y_train y_test w1 :
  train_test_split X y ts rs st w = (Ok (X_train, X_test, y_train, y_test), w1) →
  let n_samples := length X in
  let n_test := Z.to_nat (Qceiling (ts * inject_Z (Z.of_nat n_samples))) in
  let n_train := (n_samples - n_test)%nat in
  let seed := from_option id (entropy w) rs in
  ∃ train test,
    length y = n_samples ∧ n_train ≠ 0%nat ∧
    match st with
    | None => train = take n_train (drop n_test (rng_permutation seed n_samples))
              ∧ test = take n_test (rng_permutation seed n_samples)
    | Some labels => stratified_indices seed labels n_train n_test = Ok (train, test)
    end ∧
    safe_indexing X train = Ok X_train ∧ safe_indexing X test = Ok X_test ∧
    safe_indexing y train = Ok y_train ∧ safe_indexing y test = Ok y_test.
Proof.
  unfold train_test_split.
  destruct (length X =? length y)%nat eqn:Hlen; [|done]. cbn [negb].
  apply Nat.eqb_eq in Hlen.
  destruct (_ =? 0)%nat eqn:Htrain; [done|]. apply Nat.eqb_neq in Htrain.
  unfold mbind, M_bind, check_random_state, lift, mret, M_ret.
  destruct rs as [seed|]; cbn.
  all: destruct (match st with None => _ | Some _ => _ end)
         as [[train test]|] eqn:Hidx; [|done].
  all: destruct (safe_indexing X train) eqn:E1; [|done].
  all: destruct (safe_indexing X test) eqn:E2; [|done].
  all: destruct (safe_indexing y train) eqn:E3; [|done].
  all: destruct (safe_indexing y test) eqn:E4; [|done].
  all: intros [= <- <- <- <- <-]; exists train, test.
  all: repeat split; try done.
  all: destruct st; [done|]; by injection Hidx as <- <-.
Qed.

(** The unstratified split is a partition of the row numbers. *)
Lemma shuffle_split_partition seed (n n_test : nat) :
  (n_test ≤ n)%nat →
  take (n - n_test) (drop n_test (rng_permutation seed n))
    ++ take n_test (rng_permutation seed n) ≡ₚ seq 0 n.
Proof.
  intros Hle. pose proof (rng_permutation_perm seed n) as Hp.
  assert (length (rng_permutation seed n) = n) as Hlen.
  { by rewrite Hp, length_seq. }
  rewrite take_ge by (rewrite length_drop; lia).
  rewrite (comm (++)), take_drop. done.
Qed.

(** With two rows or more the unstratified 80/20 split returns. *)
Lemma shuffle_split_total X y seed w :
  length y = length X → (2 ≤ length X)%nat →
  ∃ r, train_test_split X y (2 # 10) (Some seed) None w = (Ok r, w).
Proof.
  intros Hy Hn. unfold train_test_split.
  rewrite Hy, Nat.eqb_refl. cbn [negb]. rewrite ceiling_fifth.
  assert ((length X + 4) / 5 < length X)%nat as Hlt
    by (pose proof (fifth_bounds (length X)); lia).
  destruct (_ =? 0)%nat eqn:E; [apply Nat.eqb_eq in E; lia|].
  set (n := length X) in *. set (k := ((n + 4) / 5)%nat) in *. clearbody k.
  unfold mbind, M_bind, check_random_state, lift, mret, M_ret.
  cbn -[safe_indexing]. fold n.
  pose proof (shuffle_split_partition seed n k ltac:(lia)) as Hp.
  assert (Forall (λ i, i < n)%nat
            (take (n - k) (drop k (rng_permutation seed n))
             ++ take k (rng_permutation seed n))) as Hall.
  { apply Forall_forall. intros i Hi. rewrite Hp in Hi.
    apply elem_of_seq in Hi. lia. }
  apply Forall_app in Hall as [Htr Hte].
  destruct (safe_indexing_total X n _ eq_refl Htr) as [X_train ->].
  destruct (safe_indexing_total X n _ eq_refl Hte) as [X_test ->].
  destruct (safe_indexing_total y n _ Hy Htr) as [y_train ->].
  destruct (safe_indexing_total y n _ Hy Hte) as [y_test ->].
  by eexists.
Qed.

(** With fewer the training part would be empty. *)
Lemma shuffle_split_short X y seed w :
  length y = length X → (length X < 2)%nat →
  train_test_split X y (2 # 10) (Some seed) None w = (Raise ValueError, w).
Proof.
  intros Hy Hn. unfold train_test_split.
  rewrite Hy, Nat.eqb_refl. cbn [negb]. rewrite ceiling_fifth.
  destruct (length X) as [|[|n]]; [done..|lia].
Qed.

End Split.

(** ** Inverting a successful run *)

Ltac invert_train Hrun :=
  let w1 := fresh "w1" in
  let Hsplit := fresh "Hsplit" in
  let Hfit := fresh "Hfit" in
  let Hpred := fresh "Hpred" in
  let Hdir := fresh "Hdir" in
  let Hdump := fresh "Hdump" in
  let Hdumpf := fresh "Hdumpf" in
  let Hmeta := fresh "Hmeta" in
  let Hmetaf := fresh "Hmetaf" in
  let X_train := fresh "X_train" in
  let X_test := fresh "X_test" in
  let y_train := fresh "y_train" in
  let y_test := fresh "y_test" in
  let model := fresh "model" in
  apply bind_Ok in Hrun as ([[[X_train X_test] y_train] y_test] & w1 & Hsplit & Hrun);
  cbv [trainModel_split trainPriorityFeeML_split trainSuccessClassifier_split]
    in Hsplit;
  pose proof (train_test_split_Ok _ _ _ _ _ _ _ _ Hsplit) as ->;
  cbv [trainModel_fit trainPriorityFeeML_fit trainSuccessClassifier_fit] in Hrun;
  apply bind_Ok in Hrun as (model & w1 & Hfit & Hrun);
  apply (fit_Ok _ _ 42%nat) in Hfit as [Hfit ->]; [|reflexivity];
  repeat lazymatch type of Hrun with
  | (forest_predict _ _ _ ≫= _) _ = _ =>
    let x := fresh "y_pred" in
    apply bind_Ok in Hrun as (x & w1 & Hpred & Hrun);
    rewrite forest_predict_inv in Hpred by done;
    injection Hpred as <- <-
  | (forest_predict_proba _ _ _ ≫= _) _ = _ =>
    let x := fresh "proba" in
    apply bind_Ok in Hrun as (x & w1 & Hpred & Hrun);
    rewrite forest_predict_proba_inv in Hpred by done;
    injection Hpred as <- <-
  end;
  repeat lazymatch type of Hrun with
  | (lift _ ≫= _) _ = _ =>
    let x := fresh "x" in
    let Hx := fresh "Hx" in
    apply bind_Ok in Hrun as (x & w1 & Hx & Hrun);
    apply lift_Ok in Hx as [Hx ->]
  end;
  lazymatch type of Hrun with
  | (os_makedirs _ ≫= _) _ = _ =>
    apply bind_Ok in Hrun as ([] & w1 & Hdir & Hrun);
    apply os_makedirs_Ok in Hdir as [Hdir ->]
  | _ => idtac
  end;
  apply bind_Ok in Hrun as ([] & w1 & Hdump & Hrun);
  apply write_file_Ok in Hdump as (Hdump & Hdumpf & ->);
  apply bind_Ok in Hrun as ([] & w1 & Hmeta & Hrun);
  apply write_file_Ok in Hmeta as (Hmeta & Hmetaf & ->);
  injection Hrun as <- <-.

Ltac invert_script Hrun :=
  let w1 := fresh "w1" in
  let data := fresh "data" in
  let p := fresh "p" in
  let Hload := fresh "Hload" in
  let Hfeat := fresh "Hfeat" in
  let Hne := fresh "Hne" in
  let Hrows := fresh "Hrows" in
  let Hkey := fresh "Hkey" in
  unfold run, trainModel, trainPriorityFeeML, trainSuccessClassifier in Hrun;
  apply bind_Ok in Hrun as (data & w1 & Hload & Hrun);
  apply json_load_Ok in Hload as [Hload ->];
  apply bind_Ok in Hrun as (p & w1 & Hfeat & Hrun);
  apply lift_Ok in Hfeat as [Hfeat ->];
  assert (Hne : data ≠ []) by (by intros ->);
  lazymatch type of Hfeat with
  | trainModel_features _ = _ =>
    rewrite trainModel_features_rows in Hfeat by done
  | trainPriorityFeeML_features _ = _ =>
    rewrite trainPriorityFeeML_features_rows in Hfeat by done;
    cbv zeta in Hfeat;
    destruct (length (priorityFee_rows data) <? 50)%nat eqn:Hrows; [done|]
  | trainSuccessClassifier_features _ = _ =>
    rewrite trainSuccessClassifier_features_rows in Hfeat by done
  end;
  destruct (existsb has_computeUnitsUsed data) eqn:Hkey; [|done];
  injection Hfeat as <-;
  unfold trainModel_train, trainPriorityFeeML_train, trainSuccessClassifier_train in Hrun;
  invert_train Hrun.

Ltac invert_run s Hrun := destruct s; invert_script Hrun.

Lemma split_rows_permutation {A} (X : list A) train test X_train X_test :
  train ++ test ≡ₚ seq 0 (length X) →
  safe_indexing X train = Ok X_train →
  safe_indexing X test = Ok X_test →
  X_train ++ X_test ≡ₚ X.
Proof.
  intros Hp ->%safe_indexing_omap ->%safe_indexing_omap.
  by rewrite <- omap_app, Hp, omap_lookup_seq.
Qed.

Lemma df_values_trainModel rows :
  df_values (with_flags rows)
    [ "instructionCount"; "accountCount"; "dataSize"; "priorityFee";
      "networkCongestion"; "program_jupiter"; "program_raydium" ]
  = Ok (trainModel_vector <$> rows).
Proof. cbn. by_rows rows. Qed.

Lemma df_values_priorityFee rows :
  df_values (imputed_frame rows)
    [ "instructionCount"; "accountCount"; "computeUnitsUsed"; "slotTime";
      "program_jupiter"; "program_raydium" ]
  = Ok (priorityFee_vector (column_median rows) <$> rows).
Proof.
  unfold imputed_frame. generalize (column_median rows) as m. intros m.
  cbn. by_rows rows.
Qed.

Lemma df_values_classifier rows :
  df_values (imputed_frame rows)
    [ "instructionCount"; "accountCount"; "computeUnitsUsed"; "priorityFee";
      "slotTime"; "program_jupiter"; "program_raydium" ]
  = Ok (classifier_vector (column_median rows) <$> rows).
Proof.
  unfold imputed_frame. generalize (column_median rows) as m. intros m.
  cbn. by_rows rows.
Qed.


Lemma lookup_insert_under {A} (m : gmap string A) i j x y :
  i ≠ j → <[j:=y]> (<[i:=x]> m) !! i = Some x.
Proof. intros Hij. rewrite lookup_insert_ne by done. apply lookup_insert_eq. Qed.

Lemma item_Raise {A} (l : list A) i e : item l i = Raise e → e = IndexError.
Proof. unfold item. destruct (l !! i); cbn; congruence. Qed.

Lemma mapM_Raise {A B} (f : A → Res B) (l : list A) e e0 :
  (∀ x e, f x = Raise e → e = e0) → mapM f l = Raise e → e = e0.
Proof.
  intros Hf. induction l as [|x l IH]; cbn; [done|].
  destruct (f x) as [y|e1] eqn:Hx; cbn.
  - destruct (mapM f l) as [ys|e2]; cbn; [done|]. intros [= <-]. by apply IH.
  - intros [= <-]. by eapply Hf.
Qed.

Lemma safe_indexing_Raise {A} (l : list A) idx e :
  safe_indexing l idx = Raise e → e = IndexError.
Proof. apply mapM_Raise. intros x e1. apply item_Raise. Qed.

Section Claims.
Context `{Sklearn}.

Lemma split_rows_elem_of X y ts rs st w X_train X_test y_train y_test w1 row :
  train_test_split X y ts rs st w = (Ok (X_train, X_test, y_train, y_test), w1) →
  row ∈ X_train ++ X_test → row ∈ X.
Proof.
  intros E. apply train_test_split_inv in E. cbv zeta in E.
  destruct E as (train & test & _ & _ & _ & Htr & Hte & _).
  rewrite elem_of_app.
  intros [?|?]; [by apply (safe_indexing_elem_of X train X_train)
                |by apply (safe_indexing_elem_of X test X_test)].
Qed.

(** C6.  In every script one list, [feature_columns], fixes the column
    order three times over: [X] is the frame read along that list (cell [j]
    of row [i] is cell [i] of the column named by entry [j]), the model is
    fitted (with seed 42) on rows of that [X], and the metadata file records
    the very same list under the key [feature_columns]. *)
Theorem C6_feature_order s w g w' :
  run s w = (Ok g, w') →
  df_values (g_df g) (g_feature_columns g) = Ok (g_X g)
  ∧ (∀ j c, g_feature_columns g !! j = Some c →
       ∃ cells, (getitem (g_df g) c ≫= to_numeric) = Ok cells
                ∧ ∀ i row, g_X g !! i = Some row → row !! j = cells !! i)
  ∧ (∀ row, row ∈ g_X_train g → row ∈ g_X g)
  ∧ (∃ params,
       random_state params = Some 42%nat
       ∧ forest_fit (model_kind s) params 42 (g_X_train g) (g_y_train g)
         = Ok (g_model g))
  ∧ get_key "feature_columns" (g_metadata g) = Some (JList (g_feature_columns g))
  ∧ files w' !! metadata_path s = Some (JsonObject (g_metadata g)).
Proof.
  intros Hrun.
  invert_run s Hrun;
    cbn [g_df g_feature_columns g_X g_X_train g_y_train g_model g_metadata
         metadata_path model_kind].
  1: split; [apply df_values_trainModel|].
  2: split; [apply df_values_priorityFee|].
  3: split; [apply df_values_classifier|].
  all: split;
    [intros j c Hj;
     repeat (destruct j as [|j]; cbn in Hj;
             [injection Hj as <-; eexists; split; [reflexivity|]|]); [..|done];
     intros i row (r & -> & Hr)%list_lookup_fmap_Some; cbn;
     by rewrite list_lookup_fmap, Hr|].
  all: split;
    [intros row Hrow; eapply split_rows_elem_of; [done|];
     apply elem_of_app; by left|].
  all: split; [eexists; split; [|exact Hfit]; done|].
  all: split; [done|]. all: cbn; by rewrite lookup_insert_eq.
Qed.

(** C4, key by key.  The metadata object every successful run writes has
    the keys [model_type], [n_estimators], [feature_columns], [train_samples]
    and [test_samples] and the metric keys of its pipeline; the key
    [trained_on_transactions] is written by trainPriorityFeeML and
    trainSuccessClassifier only, and [total_dataset] by trainPriorityFeeML
    only. *)
Theorem C4_metadata_keys s w g w' :
  run s w = (Ok g, w') →
  files w' !! metadata_path s = Some (JsonObject (g_metadata g))
  ∧ Forall (λ k, is_Some (get_key k (g_metadata g)))
      [ "model_type"; "n_estimators"; "feature_columns"; "train_samples";
        "test_samples" ]
  ∧ Forall (λ k, is_Some (get_key k (g_metadata g)))
      (match s with
       | TrainSuccessClassifier => [ "accuracy"; "precision"; "recall"; "f1_score" ]
       | _ => [ "mae"; "r2_score"; "accuracy_percent" ]
       end)
  ∧ (is_Some (get_key "trained_on_transactions" (g_metadata g)) ↔ s ≠ TrainModel)
  ∧ (is_Some (get_key "total_dataset" (g_metadata g)) ↔ s = TrainPriorityFeeML).
Proof.
  intros Hrun. invert_run s Hrun; cbn [g_metadata metadata_path].
  all: split; [cbn; by rewrite lookup_insert_eq|].
  all: repeat match goal with
    | |- _ ∧ _ => split
    | |- Forall _ _ =>
      repeat (apply Forall_cons; split; [cbn; eauto|]); apply Forall_nil
    | |- _ ↔ _ =>
      cbn; split; intros Hs;
      first [done | by eauto | by destruct Hs as [? [=]] | congruence]
    end.
  all: done.
Qed.

(** C10.  In the frame the feature lines of any script build, at each row
    the flags [program_jupiter] and [program_raydium] are 0 or 1, each is 1
    exactly when the row's program identifier is the corresponding constant,
    they are never both 1, and a row matching neither constant has both
    flags 0. *)
Theorem C10_one_hot_exclusive s data df cols X y :
  features s data = Ok (df, cols, X, y) →
  ∃ programs jupiter raydium,
    getitem df (program_key s) = Ok (StrSeries programs)
    ∧ getitem df "program_jupiter" = Ok (NumSeries jupiter)
    ∧ getitem df "program_raydium" = Ok (NumSeries raydium)
    ∧ ∀ i p, programs !! i = Some p →
        ∃ a b : bool,
          jupiter !! i = Some (Some (bool_to_Q a))
          ∧ raydium !! i = Some (Some (bool_to_Q b))
          ∧ (a = true ↔ p = JUPITER) ∧ (b = true ↔ p = RAYDIUM)
          ∧ ¬ (a = true ∧ b = true)
          ∧ (p ≠ JUPITER → p ≠ RAYDIUM → a = false ∧ b = false).
Proof.
  intros (rows & m & -> & _)%features_Ok.
  destruct s; cbn [program_key].
  all: eexists _, _, _; split; [reflexivity|]; split; [reflexivity|];
    split; [reflexivity|].
  all: intros i p (r & -> & Hr)%list_lookup_fmap_Some.
  all: exists (String.eqb (program r) JUPITER), (String.eqb (program r) RAYDIUM).
  all: rewrite !list_lookup_fmap, Hr, !String.eqb_eq.
  all: repeat split; try done; try by apply String.eqb_neq.
  all: intros [E1 E2]; by rewrite E1 in E2.
Qed.

(** The frame, feature list, [X] and [y] of a successful run are those of
    its feature lines. *)
Lemma run_features s w g w' :
  run s w = (Ok g, w') →
  features s (g_data g) = Ok (g_df g, g_feature_columns g, g_X g, g_y g).
Proof.
  intros Hrun. invert_run s Hrun; cbn [features g_data g_df g_feature_columns g_X g_y].
  - rewrite trainModel_features_rows by done. by rewrite Hkey.
  - rewrite trainPriorityFeeML_features_rows by done. cbv zeta.
    by rewrite Hrows, Hkey.
  - rewrite trainSuccessClassifier_features_rows by done. by rewrite Hkey.
Qed.

(** A run whose input loads and whose feature lines return goes on with the
    split and then with the lines after it. *)
Lemma run_split s w data p :
  files w !! input_path s = Some (JsonRecords data) →
  features s data = Ok p →
  run s w = (parts ← split_lines s p; fit_lines s data p parts) w.
Proof.
  intros Hin Hfeat.
  destruct s; cbn [input_path features split_lines fit_lines] in *.
  all: unfold run, trainModel, trainPriorityFeeML, trainSuccessClassifier.
  all: unfold mbind at 1, M_bind at 1, json_load; rewrite Hin.
  all: unfold mbind at 1, M_bind at 1, lift at 1; by rewrite Hfeat.
Qed.

Lemma run_fit s w data p parts :
  files w !! input_path s = Some (JsonRecords data) →
  features s data = Ok p →
  split_lines s p w = (Ok parts, w) →
  run s w = fit_lines s data p parts w.
Proof.
  intros Hin Hfeat Hsplit. rewrite (run_split s w data p Hin Hfeat).
  unfold mbind, M_bind. by rewrite Hsplit.
Qed.

(** With a forest that fits and writable paths, the lines after the split
    of the two regression scripts run to their end. *)
Lemma regression_fit_succeeds s w data p parts :
  s ≠ TrainSuccessClassifier →
  (∀ params seed X y, ∃ m, forest_fit RandomForestRegressor params seed X y = Ok m) →
  (s = TrainPriorityFeeML → "models" ∉ denied w) →
  model_path s ∉ denied w → failing w !! model_path s = None →
  metadata_path s ∉ denied w → failing w !! metadata_path s = None →
  ∃ g w', fit_lines s data p parts w = (Ok g, w').
Proof.
  intros Hs Hfit Hdir Hmodel Hmodelf Hmeta Hmetaf.
  destruct p as [[[df cols] X] y], parts as [[[X_train X_test] y_train] y_test].
  destruct s; [| |done]; cbn [fit_lines model_path metadata_path] in *.
  - cbv [trainModel_fit]. unfold mbind at 1, M_bind at 1.
    unfold fit, mbind, M_bind, check_random_state, lift.
    cbn [random_state].
    destruct (Hfit {| n_estimators := 100; max_depth := 15; min_samples_split := 5;
       min_samples_leaf := 2; random_state := Some 42%nat; n_jobs := -1;
       class_weight := None |} 42%nat X_train y_train) as [model ->].
    rewrite forest_predict_inv by done.
    unfold joblib_dump, json_dump, write_file. cbn [denied failing joined].
    rewrite bool_decide_eq_false_2 by done. rewrite Hmodelf.
    cbn [denied failing written made joined].
    rewrite bool_decide_eq_false_2 by done. rewrite Hmetaf. by eexists _, _.
  - cbv [trainPriorityFeeML_fit]. unfold mbind at 1, M_bind at 1.
    unfold fit, mbind, M_bind, check_random_state, lift.
    cbn [random_state].
    destruct (Hfit {| n_estimators := 100; max_depth := 15; min_samples_split := 5;
       min_samples_leaf := 2; random_state := Some 42%nat; n_jobs := -1;
       class_weight := None |} 42%nat X_train y_train) as [model ->].
    rewrite forest_predict_inv by done.
    unfold os_makedirs, joblib_dump, json_dump, write_file.
    cbn [denied failing joined].
    rewrite bool_decide_eq_false_2 by auto. cbn [denied failing made joined].
    rewrite bool_decide_eq_false_2 by done. rewrite Hmodelf.
    cbn [denied failing written made joined].
    rewrite bool_decide_eq_false_2 by done. rewrite Hmetaf. by eexists _, _.
Qed.

(** The unstratified 80/20 split: a partition of the row numbers whose test
    part has [ceil(n / 5)] rows. *)
Lemma shuffle_split_spec X y seed w X_train X_test y_train y_test w1 :
  train_test_split X y (2 # 10) (Some seed) None w
    = (Ok (X_train, X_test, y_train, y_test), w1) →
  ∃ train test,
    train ++ test ≡ₚ seq 0 (length X)
    ∧ length test = ((length X + 4) / 5)%nat
    ∧ length y = length X
    ∧ safe_indexing X train = Ok X_train ∧ safe_indexing X test = Ok X_test
    ∧ safe_indexing y train = Ok y_train ∧ safe_indexing y test = Ok y_test.
Proof.
  intros E. apply train_test_split_inv in E. cbv zeta in E.
  cbn [from_option id] in E.
  destruct E as (train & test & Hy & Hn & [-> ->] & E1 & E2 & E3 & E4).
  rewrite ceiling_fifth in *.
  assert ((length X + 4) / 5 ≤ length X)%nat as Hle by lia.
  eexists _, _. split; [by apply shuffle_split_partition|].
  split; [|done].
  rewrite length_take, (Permutation_length (rng_permutation_perm _ _)), length_seq.
  lia.
Qed.

(** C7.  The filters come first: [X] and [y] hold one row per record that
    passed every filter of the script, in input order; the median used for
    imputation is the median over exactly those records; and the split drops
    nothing afterwards (the training and test rows together are a
    permutation of [X]). *)
Theorem C7_filters_first s w g w' :
  run s w = (Ok g, w') →
  let data := g_data g in
  match s with
  | TrainModel =>
    let rows := List.filter has_cu (List.filter is_success data) in
    g_X g = trainModel_vector <$> rows ∧ g_y g = computeUnitsUsed <$> rows
  | TrainPriorityFeeML =>
    let rows := List.filter has_fee (List.filter is_success data) in
    let m := median_of (omap computeUnitsUsed rows) in
    g_X g = priorityFee_vector m <$> rows ∧ g_y g = (Some ∘ priorityFee) <$> rows
  | TrainSuccessClassifier =>
    let m := median_of (omap computeUnitsUsed data) in
    g_X g = classifier_vector m <$> data
    ∧ g_y g = (Some ∘ bool_to_Q ∘ success) <$> data
  end
  ∧ (s ≠ TrainSuccessClassifier →
     g_X_train g ++ g_X_test g ≡ₚ g_X g ∧ g_y_train g ++ g_y_test g ≡ₚ g_y g).
Proof.
  intros Hrun. invert_run s Hrun; cbn; (split; [done|]); [| |done].
  all: intros _; apply shuffle_split_spec in Hsplit.
  all: destruct Hsplit as (train & test & Hp & _ & Hy & E1 & E2 & E3 & E4).
  all: split; (eapply split_rows_permutation; [|done..]).
  all: by rewrite ?Hy.
Qed.

(** C5, for the data sets that are split.  In trainModel and
    trainPriorityFeeML, whatever the feature lines hand on is split in this
    way: with two rows or more the script goes on to fit with parts [X_train],
    [X_test], [y_train], [y_test] that are a partition of the filtered data
    (the row numbers of the two parts are disjoint and cover every row, the
    sizes add up, and the test part is a fifth of the rows up to rounding,
    less than one sample away); with fewer than two rows nothing is split:
    [train_test_split] raises [ValueError] and the run ends there. *)
Theorem C5_split_partition s w data df cols X y :
  s ≠ TrainSuccessClassifier →
  files w !! input_path s = Some (JsonRecords data) →
  features s data = Ok (df, cols, X, y) →
  if decide (2 ≤ length X)%nat
  then ∃ (train test : list nat) X_train X_test y_train y_test,
         NoDup (train ++ test)
         ∧ (∀ i, i ∈ train ++ test ↔ (i < length X)%nat)
         ∧ safe_indexing X train = Ok X_train
         ∧ safe_indexing X test = Ok X_test
         ∧ safe_indexing y train = Ok y_train
         ∧ safe_indexing y test = Ok y_test
         ∧ (length X_train + length X_test = length X)%nat
         ∧ (length X ≤ 5 * length X_test < length X + 5)%nat
         ∧ run s w = fit_lines s data (df, cols, X, y)
                       (X_train, X_test, y_train, y_test) w
  else run s w = (Raise ValueError, w).
Proof.
  intros Hs Hin Hfeat.
  assert (length y = length X) as Hlen.
  { apply features_Ok in Hfeat as (rows & m & _ & HX & Hy).
    rewrite Hy. destruct s; rewrite HX; by rewrite length_fmap. }
  assert (split_lines s (df, cols, X, y)
          = train_test_split X y (2 # 10) (Some 42%nat) None) as Hsplit
    by (by destruct s).
  destruct (decide (2 ≤ length X)%nat) as [Hn|Hn].
  - destruct (shuffle_split_total X y 42 w Hlen Hn)
      as ([[[X_train X_test] y_train] y_test] & Hr).
    pose proof Hr as Hspec. apply shuffle_split_spec in Hspec.
    destruct Hspec as (train & test & Hp & Htest & _ & E1 & E2 & E3 & E4).
    exists train, test, X_train, X_test, y_train, y_test.
    pose proof (safe_indexing_length _ _ _ E1) as L1.
    pose proof (safe_indexing_length _ _ _ E2) as L2.
    assert (length train + length test = length X)%nat as L3
      by (by rewrite <- length_app, Hp, length_seq).
    split; [rewrite Hp; apply NoDup_seq|].
    split; [intros i; rewrite Hp, elem_of_seq; lia|].
    do 4 (split; [done|]). split; [lia|].
    split; [rewrite L2, Htest; apply fifth_bounds|].
    apply (run_fit s w data _ _ Hin Hfeat). by rewrite Hsplit.
  - rewrite (run_split s w data _ Hin Hfeat). unfold mbind, M_bind.
    rewrite Hsplit, shuffle_split_short by (done || lia). done.
Qed.

(** A seeded split does not read the world. *)
Lemma train_test_split_seeded X y ts seed st w1 w2 :
  (train_test_split X y ts (Some seed) st w1).1
  = (train_test_split X y ts (Some seed) st w2).1.
Proof.
  unfold train_test_split.
  destruct (negb _); [done|]. destruct (_ =? 0)%nat; [done|].
  unfold mbind, M_bind, check_random_state, lift, mret, M_ret. cbn.
  destruct (match st with None => _ | Some _ => _ end) as [[train test]|]; [|done].
  repeat (match goal with |- context [safe_indexing ?l ?i] =>
            destruct (safe_indexing l i) end; cbn; try done).
Qed.

(** C8, as far as the seeds reach.  Two successful runs of one script on
    the same input file make the same split, fit the same forest and write
    the same model file, whatever else differs between the two worlds (other
    files, directories, the generator's entropy): split and forest are
    seeded with 42.  Their metadata agree at every key that does not hold a
    metric, and at those too when the threads of the forest's parallel
    [predict] finish in the same order in both runs. *)
Theorem C8_seeded_runs_agree s w1 w2 g1 g2 w1' w2' :
  files w1 !! input_path s = files w2 !! input_path s →
  run s w1 = (Ok g1, w1') →
  run s w2 = (Ok g2, w2') →
  g_X_train g1 = g_X_train g2 ∧ g_X_test g1 = g_X_test g2
  ∧ g_y_train g1 = g_y_train g2 ∧ g_y_test g1 = g_y_test g2
  ∧ g_model g1 = g_model g2
  ∧ files w1' !! model_path s = files w2' !! model_path s
  ∧ (∀ k, k ∉ metric_keys →
          get_key k (g_metadata g1) = get_key k (g_metadata g2))
  ∧ (threads w1 0%nat = threads w2 0%nat → g_metadata g1 = g_metadata g2)
  ∧ files w1' !! metadata_path s = Some (JsonObject (g_metadata g1))
  ∧ files w2' !! metadata_path s = Some (JsonObject (g_metadata g2)).
Proof.
  intros Hin Hrun1 Hrun2. destruct s; invert_script Hrun1; invert_script Hrun2.
  all: cbn [input_path] in Hin; rewrite Hload, Hload0 in Hin.
  all: injection Hin as <-.
  all: match type of Hsplit with
       | train_test_split ?X ?y ?ts (Some ?seed) ?st _ = _ =>
         pose proof (train_test_split_seeded X y ts seed st w1 w2) as Hs
       end.
  all: rewrite Hsplit, Hsplit0 in Hs; cbn in Hs; injection Hs as <- <- <- <-.
  all: rewrite Hfit in Hfit0; injection Hfit0 as <-.
  all: cbn [g_X_train g_X_test g_y_train g_y_test g_model g_metadata
            metadata_path model_path].
  all: do 5 (split; [done|]).
  all: split; [cbn [files written made joined];
               by rewrite !lookup_insert_under by done|].
  all: split;
    [intros k Hk; cbn [get_key];
     repeat (match goal with
             | |- context [String.eqb k ?c] =>
               destruct (String.eqb_spec k c) as [->|_];
               [first [reflexivity
                      | exfalso; apply Hk; apply list_elem_of_In; cbn; tauto]|]
             end);
     reflexivity|].
  all: split; [by intros ->|].
  all: cbn [files written made joined]; by rewrite !lookup_insert_eq.
Qed.

(** ** Runs that abort *)

(** C9.  When the input file is absent, is not JSON, or holds an empty
    array, every script stops on an uncaught exception (FileNotFoundError,
    JSONDecodeError, or the KeyError of the first [df['success']]; the
    spec's DatasetError), the exit status is 1, and the world is left as it
    was: no model file, no metadata file. *)
Theorem C9_bad_input_aborts s w :
  files w !! input_path s = None
  ∨ files w !! input_path s = Some Garbage
  ∨ files w !! input_path s = Some (JsonRecords []) →
  ∃ e, run s w = (Raise e, w)
       ∧ exit_code (Raise e : Res Globals) = 1%Z
       ∧ match files w !! input_path s with
         | None => e = FileNotFoundError (input_path s)
         | Some Garbage => e = JSONDecodeError
         | _ => e = KeyError "success"
         end.
Proof.
  intros Hbad.
  destruct s; unfold run, trainModel, trainPriorityFeeML, trainSuccessClassifier;
    unfold mbind, M_bind, json_load; cbn [input_path] in *.
  all: destruct Hbad as [-> | [-> | ->]]; cbn; eauto.
Qed.

(** C1, for trainPriorityFeeML, the one script with the check:
    when fewer than 50 records pass its filters the feature lines raise,
    the run ends there with exit status 1 (by [exit(1)] unless the input is
    empty) and the world is left as it was, so nothing is trained and
    nothing is written. *)
Theorem C1_threshold_in_priority_fee w data :
  files w !! input_path TrainPriorityFeeML = Some (JsonRecords data) →
  (length (priorityFee_rows data) < 50)%nat →
  ∃ e, trainPriorityFeeML_features data = Raise e
       ∧ trainPriorityFeeML w = (Raise e, w)
       ∧ exit_code (Raise e : Res Globals) = 1%Z
       ∧ (data ≠ [] → e = SystemExit 1).
Proof.
  intros Hin Hfew. cbn [input_path] in Hin.
  unfold trainPriorityFeeML, mbind, M_bind, json_load. rewrite Hin.
  destruct (decide (data = [])) as [->|Hne]; [by eexists|].
  rewrite trainPriorityFeeML_features_rows by done. cbv zeta.
  apply Nat.ltb_lt in Hfew. rewrite Hfew. by eexists.
Qed.

(** ** What an aborted run leaves behind *)

(** The lines after the split stop at the fit, at an index of the printed
    report (the classifier), at the directory, at the model file or at the
    metadata file; a write that breaks off leaves what it had written. *)
Lemma fit_lines_Raise s data p X_train X_test y_train y_test w e w' :
  fit_lines s data p (X_train, X_test, y_train, y_test) w = (Raise e, w') →
  ((∃ params, random_state params = Some 42%nat
              ∧ forest_fit (model_kind s) params 42 X_train y_train = Raise e)
   ∧ w' = w)
  ∨ (s = TrainSuccessClassifier ∧ e = IndexError ∧ w' = evaluated s w)
  ∨ (s ≠ TrainModel ∧ e = OSError "models" ∧ w' = evaluated s w)
  ∨ (e = OSError (model_path s)
     ∧ (w' = staged s w
        ∨ ∃ rest, failing w !! model_path s = Some rest
                  ∧ w' = written (model_path s) rest (staged s w)))
  ∨ (e = OSError (metadata_path s)
     ∧ ∃ m, w' = written (model_path s) (Pickle m) (staged s w)
            ∨ ∃ rest, failing w !! metadata_path s = Some rest
                      ∧ w' = written (metadata_path s) rest
                               (written (model_path s) (Pickle m) (staged s w))).
Proof.
  destruct p as [[[df cols] X] y].
  destruct s; cbn [fit_lines metadata_path model_path model_kind staged evaluated].
  all: intros Hrun.
  all: cbv [trainModel_fit trainPriorityFeeML_fit trainSuccessClassifier_fit] in Hrun.
  all: apply bind_Raise in Hrun as [Hrun | (model & w1 & Hfit & Hrun)];
       [apply (fit_Raise _ _ 42%nat) in Hrun as [Hrun ->]; [|reflexivity];
        left; split; [|done]; eexists; split; [|exact Hrun]; reflexivity|].
  all: apply (fit_Ok _ _ 42%nat) in Hfit as [_ ->]; [|reflexivity].
  all: repeat lazymatch type of Hrun with
       | (forest_predict _ _ _ ≫= _) _ = _ =>
         let x := fresh "y_pred" in
         let Hpred := fresh "Hpred" in
         apply bind_Raise in Hrun as [Hrun | (x & w1 & Hpred & Hrun)];
         [by rewrite forest_predict_inv in Hrun|];
         rewrite forest_predict_inv in Hpred by done;
         injection Hpred as <- <-
       | (forest_predict_proba _ _ _ ≫= _) _ = _ =>
         let x := fresh "proba" in
         let Hpred := fresh "Hpred" in
         apply bind_Raise in Hrun as [Hrun | (x & w1 & Hpred & Hrun)];
         [by rewrite forest_predict_proba_inv in Hrun|];
         rewrite forest_predict_proba_inv in Hpred by done;
         injection Hpred as <- <-
       end.
  all: repeat lazymatch type of Hrun with
       | (lift _ ≫= _) _ = _ =>
         let x := fresh "x" in
         let Hx := fresh "Hx" in
         apply bind_Raise in Hrun as [Hrun | (x & w1 & Hx & Hrun)];
         [apply lift_Raise in Hrun as [Hrun ->];
          assert (e = IndexError) as ->
            by (first [ eapply mapM_Raise; [|exact Hrun];
                        intros row e1; apply item_Raise
                      | match type of Hrun with
                        | (?r ≫= _) = _ =>
                          let E := fresh "E" in
                          destruct r as [row|e1] eqn:E; cbn in Hrun;
                          [by apply item_Raise in Hrun
                          |injection Hrun as <-; by apply item_Raise in E]
                        end ]);
          right; left; done|];
         apply lift_Ok in Hx as [_ ->]
       end.
  all: try (apply bind_Raise in Hrun as [Hrun | ([] & w1 & Hdir & Hrun)];
       [apply os_makedirs_Raise in Hrun as [-> ->]; do 2 right; left; done|];
       apply os_makedirs_Ok in Hdir as [_ ->]).
  all: apply bind_Raise in Hrun as [Hrun | ([] & w1 & Hdump & Hrun)];
       [apply write_file_Raise in Hrun as [-> [->|(rest & Hrest & ->)]];
        do 3 right; left; (split; [done|]);
        [by left|right; by exists rest]|].
  all: apply write_file_Ok in Hdump as (_ & _ & ->).
  all: apply bind_Raise in Hrun as [Hrun | ([] & w1 & Hmeta & Hrun)];
       [apply write_file_Raise in Hrun as [-> [->|(rest & Hrest & ->)]];
        do 4 right; (split; [done|]); eexists;
        [by left|right; by exists rest]|].
  all: done.
Qed.

(** Where a run can stop. *)
Lemma run_Raise_inv s w e w' :
  run s w = (Raise e, w') →
  (json_load (input_path s) w = (Raise e, w) ∧ w' = w)
  ∨ ∃ data, files w !! input_path s = Some (JsonRecords data)
      ∧ ((features s data = Raise e ∧ w' = w)
         ∨ ∃ p, features s data = Ok p
             ∧ ((split_lines s p w = (Raise e, w) ∧ w' = w)
                ∨ ∃ parts, split_lines s p w = (Ok parts, w)
                    ∧ fit_lines s data p parts w = (Raise e, w'))).
Proof.
  intros Hrun.
  destruct (json_load (input_path s) w) as [[data|e0] w0] eqn:Hload.
  2: { left. pose proof (json_load_world (input_path s) w) as W.
       rewrite Hload in W. cbn in W. subst w0.
       assert (run s w = (Raise e0, w)) as Hrun'.
       { destruct s; cbn [input_path] in Hload;
           unfold run, trainModel, trainPriorityFeeML, trainSuccessClassifier;
           unfold mbind at 1, M_bind at 1; by rewrite Hload. }
       rewrite Hrun in Hrun'. by injection Hrun' as -> ->. }
  apply json_load_Ok in Hload as [Hin ->]. right. exists data. split; [done|].
  destruct (features s data) as [p|e0] eqn:Hfeat.
  2: { left.
       assert (run s w = (Raise e0, w)) as Hrun'.
       { destruct s; cbn [input_path features] in *;
           unfold run, trainModel, trainPriorityFeeML, trainSuccessClassifier;
           unfold mbind at 1, M_bind at 1, json_load; rewrite Hin;
           unfold mbind at 1, M_bind at 1, lift at 1; by rewrite Hfeat. }
       rewrite Hrun in Hrun'. by injection Hrun' as -> ->. }
  right. exists p. split; [done|].
  rewrite (run_split s w data p Hin Hfeat) in Hrun.
  assert ((split_lines s p w).2 = w) as Hw.
  { destruct p as [[[df cols] X] y].
    destruct s; apply train_test_split_world. }
  apply bind_Raise in Hrun as [Hrun | (parts & w1 & Hsplit & Hrun)].
  - left. rewrite Hrun in Hw. cbn in Hw. by subst.
  - right. rewrite Hsplit in Hw. cbn in Hw. subst. by exists parts.
Qed.

(** C2, in the order the code writes.  A run that succeeds has written the
    model file and then the metadata file.  A run that aborts before its
    first write leaves the files as they were.  The writes are made in
    place, one after the other, and nothing is undone: an abort in the model
    write can leave a model file that was cut short, and an abort at the
    metadata write leaves the whole model file with a metadata file that is
    absent, old, or cut short. *)
Theorem C2_model_then_metadata s w :
  match run s w with
  | (Ok g, w') =>
    files w' = <[metadata_path s := JsonObject (g_metadata g)]>
                 (<[model_path s := Pickle (g_model g)]> (files w))
  | (Raise e, w') =>
    files w' = files w
    ∨ (e = OSError (model_path s)
       ∧ ∃ rest, failing w !! model_path s = Some rest
                 ∧ files w' = <[model_path s := rest]> (files w))
    ∨ (e = OSError (metadata_path s)
       ∧ ∃ m, files w' = <[model_path s := Pickle m]> (files w)
              ∨ ∃ rest, failing w !! metadata_path s = Some rest
                        ∧ files w' = <[metadata_path s := rest]>
                                       (<[model_path s := Pickle m]> (files w)))
  end.
Proof.
  destruct (run s w) as [[g|e] w'] eqn:Hrun.
  - invert_run s Hrun; done.
  - assert (files (staged s w) = files w) as Hf by (by destruct s).
    assert (files (evaluated s w) = files w) as Hf' by (by destruct s).
    apply run_Raise_inv in Hrun
      as [[_ ->] | (data & _ & [[_ ->] | (p & _ & [[_ ->] | (parts & _ & Hrun)])])];
      [by left..|].
    destruct parts as [[[X_train X_test] y_train] y_test].
    apply fit_lines_Raise in Hrun
      as [[_ ->] | [(_ & _ & ->) | [(_ & _ & ->)
          | [[-> [->|(rest & Hrest & ->)]] | [-> (m & [->|(rest & Hrest & ->)])]]]]].
    all: cbn [files written]; rewrite ?Hf, ?Hf'.
    + by left.
    + by left.
    + by left.
    + by left.
    + right. left. split; [done|]. by exists rest.
    + do 2 right. split; [done|]. exists m. by left.
    + do 2 right. split; [done|]. exists m. right. by exists rest.
Qed.

End Claims.


(** ** The scripts on the sample inputs *)

Ltac run_sample s w H :=
  let r := eval vm_compute in (run s w).1 in
  lazymatch r with
  | Ok ?g =>
    assert (H : run s w = (Ok g, (run s w).2))
      by (vm_cast_no_check (eq_refl (run s w)))
  end.

Ltac with_sample_run s w H :=
  run_sample s w H; eexists _, _; split; [exact H|].

(** Runs the script, gives the result as the witness and goes on with a
    name for it. *)
Ltac on_sample_run s w g H :=
  run_sample s w H;
  lazymatch type of H with
  | _ = (Ok ?G, ?W) =>
    exists G, W; split; [exact H|]; revert H; generalize G; intros g H
  end.

(** Closes an equation between closed terms by evaluation. *)
Ltac by_evaluation :=
  lazymatch goal with
  | |- ?a = ?b => vm_cast_no_check (eq_refl b)
  end.

Lemma is_Some_test {A} (mx : option A) :
  match mx with Some _ => true | None => false end = true → is_Some mx.
Proof. by destruct mx. Qed.

(** All three scripts run to their end on the sample inputs. *)
Example sample_runs_succeed :
  ∀ s, exit_code (run s (sample_world s)).1 = 0%Z.
Proof. intros []; vm_compute; reflexivity. Qed.

(** C1 does not hold for every script: with 8 surviving records trainModel
    trains and writes both files, and so does trainSuccessClassifier on its
    10 records; at most one script has the check. *)
Lemma C1_counterexample :
  (length (trainModel_rows ten_records) < 50)%nat
  ∧ (∃ g w', run TrainModel (sample_world TrainModel) = (Ok g, w')
       ∧ exit_code (Ok g) = 0%Z
       ∧ is_Some (files w' !! model_path TrainModel)
       ∧ is_Some (files w' !! metadata_path TrainModel))
  ∧ (length ten_records < 50)%nat
  ∧ (∃ g w', run TrainSuccessClassifier (sample_world TrainSuccessClassifier)
               = (Ok g, w')
       ∧ exit_code (Ok g) = 0%Z
       ∧ is_Some (files w' !! model_path TrainSuccessClassifier)
       ∧ is_Some (files w' !! metadata_path TrainSuccessClassifier)).
Proof.
  split; [vm_compute; lia|]. split.
  { with_sample_run TrainModel (sample_world TrainModel) Hrun.
    split; [vm_compute; reflexivity|]. split; apply is_Some_test; vm_compute; reflexivity. }
  split; [vm_compute; lia|].
  with_sample_run TrainSuccessClassifier (sample_world TrainSuccessClassifier) Hrun.
  split; [vm_compute; reflexivity|]. split; apply is_Some_test; vm_compute; reflexivity.
Qed.

Lemma C1_threshold_in_priority_fee_witness :
  files (world_of (input_path TrainPriorityFeeML) ten_records ∅)
    !! input_path TrainPriorityFeeML = Some (JsonRecords ten_records)
  ∧ (length (priorityFee_rows ten_records) < 50)%nat
  ∧ trainPriorityFeeML (world_of (input_path TrainPriorityFeeML) ten_records ∅)
    = (Raise (SystemExit 1), world_of (input_path TrainPriorityFeeML) ten_records ∅).
Proof.
  assert (files (world_of (input_path TrainPriorityFeeML) ten_records ∅)
            !! input_path TrainPriorityFeeML = Some (JsonRecords ten_records)) as Hin
    by apply lookup_singleton_eq.
  assert (length (priorityFee_rows ten_records) < 50)%nat as Hfew
    by (vm_compute; lia).
  split; [exact Hin|]. split; [exact Hfew|].
  destruct (C1_threshold_in_priority_fee _ _ Hin Hfew) as (e & _ & Hrun & _ & He).
  by rewrite Hrun, He.
Defined.

(** C2 does not hold as an all-or-nothing statement: when the metadata path cannot be
    written, trainModel aborts after the model file is on disk and leaves it
    there without its metadata. *)
Lemma C2_counterexample :
  ∃ m w',
    trainModel (world_of "data/labeled_transactions.json" ten_records
                  {[ "data/model_metadata.json" ]})
      = (Raise (OSError "data/model_metadata.json"), w')
    ∧ files w' !! "data/model.pkl" = Some (Pickle m)
    ∧ files w' !! "data/model_metadata.json" = None.
Proof.
  let m := eval vm_compute in
    (files (trainModel (world_of "data/labeled_transactions.json" ten_records
                          {[ "data/model_metadata.json" ]})).2 !! "data/model.pkl") in
  lazymatch m with
  | Some (Pickle ?model) =>
    exists model,
      (trainModel (world_of "data/labeled_transactions.json" ten_records
                     {[ "data/model_metadata.json" ]})).2
  end.
  split; [vm_cast_no_check
            (eq_refl (trainModel (world_of "data/labeled_transactions.json"
                                    ten_records {[ "data/model_metadata.json" ]})))|].
  split; by_evaluation.
Qed.

(** C3, the code at the failing input: fifty fee-paying successes, none with
    compute units.  The median is NaN, [fillna] changes nothing, and every
    feature vector keeps an absent value in the imputed column. *)
Theorem C3_all_absent_stays_absent :
  trainPriorityFeeML_features fifty_without_cu
  = Ok (imputed_frame fifty_without_cu,
        [ "instructionCount"; "accountCount"; "computeUnitsUsed"; "slotTime";
          "program_jupiter"; "program_raydium" ],
        replicate 50 [ Some 3%Q; Some 7%Q; None; Some 400%Q; Some 1%Q; Some 0%Q ],
        replicate 50 (Some (1 # 1000))).
Proof. vm_compute. reflexivity. Qed.

(** C4 does not hold for every script: the metadata trainModel writes has
    neither [trained_on_transactions] nor [total_dataset]. *)
Lemma C4_counterexample :
  ∃ g w', run TrainModel (sample_world TrainModel) = (Ok g, w')
    ∧ files w' !! metadata_path TrainModel = Some (JsonObject (g_metadata g))
    ∧ get_key "trained_on_transactions" (g_metadata g) = None
    ∧ get_key "total_dataset" (g_metadata g) = None.
Proof.
  with_sample_run TrainModel (sample_world TrainModel) Hrun.
  split; [by_evaluation|]. split; by_evaluation.
Qed.

Lemma C4_metadata_keys_witness :
  ∃ g w', run TrainSuccessClassifier (sample_world TrainSuccessClassifier)
            = (Ok g, w')
    ∧ Forall (λ k, is_Some (get_key k (g_metadata g)))
        [ "accuracy"; "precision"; "recall"; "f1_score" ]
    ∧ (is_Some (get_key "trained_on_transactions" (g_metadata g))
       ↔ TrainSuccessClassifier ≠ TrainModel)
    ∧ (is_Some (get_key "total_dataset" (g_metadata g))
       ↔ TrainSuccessClassifier = TrainPriorityFeeML).
Proof.
  with_sample_run TrainSuccessClassifier (sample_world TrainSuccessClassifier) Hrun.
  by pose proof (C4_metadata_keys _ _ _ _ Hrun) as (_ & _ & K).
Defined.

(** C5 does not hold for every filtered data set: of the two records of
    [one_survivor] one passes the filters of trainModel; the feature lines
    hand on one row, and [train_test_split] raises [ValueError] instead of
    splitting it. *)
Lemma C5_counterexample :
  ∃ df cols X y,
    features TrainModel one_survivor = Ok (df, cols, X, y)
    ∧ length X = 1%nat
    ∧ run TrainModel (world_of (input_path TrainModel) one_survivor ∅)
      = (Raise ValueError, world_of (input_path TrainModel) one_survivor ∅).
Proof.
  eexists _, _, _, _. split; [vm_compute; reflexivity|].
  split; [reflexivity|].
  vm_cast_no_check
    (eq_refl (run TrainModel (world_of (input_path TrainModel) one_survivor ∅))).
Qed.

Lemma C5_split_partition_witness :
  (TrainModel ≠ TrainSuccessClassifier
   ∧ TrainPriorityFeeML ≠ TrainSuccessClassifier)
  ∧ (∃ df cols X y,
       features TrainModel ten_records = Ok (df, cols, X, y)
       ∧ ∃ X_train X_test y_train y_test,
           (length X_train + length X_test = length X)%nat
           ∧ run TrainModel (sample_world TrainModel)
             = fit_lines TrainModel ten_records (df, cols, X, y)
                 (X_train, X_test, y_train, y_test) (sample_world TrainModel))
  ∧ (∃ df cols X y,
       features TrainPriorityFeeML sixty_records = Ok (df, cols, X, y)
       ∧ ∃ X_train X_test y_train y_test,
           (length X_train + length X_test = length X)%nat
           ∧ run TrainPriorityFeeML (sample_world TrainPriorityFeeML)
             = fit_lines TrainPriorityFeeML sixty_records (df, cols, X, y)
                 (X_train, X_test, y_train, y_test)
                 (sample_world TrainPriorityFeeML)).
Proof.
  assert (TrainModel ≠ TrainSuccessClassifier) as Hs1 by done.
  assert (TrainPriorityFeeML ≠ TrainSuccessClassifier) as Hs2 by done.
  split; [by split|]. split.
  - assert (features TrainModel ten_records
            = Ok (with_flags (trainModel_rows ten_records),
                  [ "instructionCount"; "accountCount"; "dataSize"; "priorityFee";
                    "networkCongestion"; "program_jupiter"; "program_raydium" ],
                  trainModel_vector <$> trainModel_rows ten_records,
                  computeUnitsUsed <$> trainModel_rows ten_records)) as Hfeat
      by (vm_compute; reflexivity).
    assert (files (sample_world TrainModel) !! input_path TrainModel
            = Some (JsonRecords ten_records)) as Hin
      by apply lookup_singleton_eq.
    eexists _, _, _, _. split; [exact Hfeat|].
    pose proof (C5_split_partition _ _ _ _ _ _ _ Hs1 Hin Hfeat) as K.
    destruct (decide _) as [_|Hn] in K; [|exfalso; apply Hn; vm_compute; lia].
    destruct K as (train & test & X_train & X_test & y_train & y_test
                   & _ & _ & _ & _ & _ & _ & K1 & _ & K2).
    exists X_train, X_test, y_train, y_test. split; [exact K1|exact K2].
  - assert (features TrainPriorityFeeML sixty_records
            = Ok (imputed_frame (priorityFee_rows sixty_records),
                  [ "instructionCount"; "accountCount"; "computeUnitsUsed";
                    "slotTime"; "program_jupiter"; "program_raydium" ],
                  priorityFee_vector (column_median (priorityFee_rows sixty_records))
                    <$> priorityFee_rows sixty_records,
                  (Some ∘ priorityFee) <$> priorityFee_rows sixty_records))
      as Hfeat by (vm_compute; reflexivity).
    assert (files (sample_world TrainPriorityFeeML) !! input_path TrainPriorityFeeML
            = Some (JsonRecords sixty_records)) as Hin
      by apply lookup_singleton_eq.
    eexists _, _, _, _. split; [exact Hfeat|].
    pose proof (C5_split_partition _ _ _ _ _ _ _ Hs2 Hin Hfeat) as K.
    destruct (decide _) as [_|Hn] in K; [|exfalso; apply Hn; vm_compute; lia].
    destruct K as (train & test & X_train & X_test & y_train & y_test
                   & _ & _ & _ & _ & _ & _ & K1 & _ & K2).
    exists X_train, X_test, y_train, y_test. split; [exact K1|exact K2].
Defined.

Lemma C6_feature_order_witness :
  ∃ g w', run TrainModel (sample_world TrainModel) = (Ok g, w')
    ∧ get_key "feature_columns" (g_metadata g) = Some (JList (g_feature_columns g))
    ∧ files w' !! metadata_path TrainModel = Some (JsonObject (g_metadata g)).
Proof.
  with_sample_run TrainModel (sample_world TrainModel) Hrun.
  by pose proof (C6_feature_order _ _ _ _ Hrun) as (_ & _ & _ & _ & K).
Defined.

Lemma C7_filters_first_witness :
  ∃ g w', run TrainModel (sample_world TrainModel) = (Ok g, w')
    ∧ g_X g = trainModel_vector
                <$> List.filter has_cu (List.filter is_success (g_data g))
    ∧ g_X_train g ++ g_X_test g ≡ₚ g_X g.
Proof.
  with_sample_run TrainModel (sample_world TrainModel) Hrun.
  pose proof (C7_filters_first _ _ _ _ Hrun) as ((K1 & _) & K2).
  split; [exact K1|]. by apply K2.
Defined.

(** C8 does not hold of the metric values: on the same eight records two
    runs of trainModel whose worker threads finish in different orders (0 and
    1) write different values of [mae]; the sum of the trees' answers is a
    sum of floats. *)
Lemma C8_counterexample :
  files (world_in_order TrainModel eight_varied 0) !! input_path TrainModel
  = files (world_in_order TrainModel eight_varied 1) !! input_path TrainModel
  ∧ ∃ g1 w1' g2 w2',
      run TrainModel (world_in_order TrainModel eight_varied 0) = (Ok g1, w1')
      ∧ run TrainModel (world_in_order TrainModel eight_varied 1) = (Ok g2, w2')
      ∧ files w1' !! metadata_path TrainModel = Some (JsonObject (g_metadata g1))
      ∧ files w2' !! metadata_path TrainModel = Some (JsonObject (g_metadata g2))
      ∧ get_key "mae" (g_metadata g1) ≠ get_key "mae" (g_metadata g2).
Proof.
  split; [reflexivity|].
  run_sample TrainModel (world_in_order TrainModel eight_varied 0) Hrun1.
  run_sample TrainModel (world_in_order TrainModel eight_varied 1) Hrun2.
  eexists _, _, _, _. split; [exact Hrun1|]. split; [exact Hrun2|].
  split; [by_evaluation|]. split; [by_evaluation|].
  intros Heq.
  apply (f_equal (λ v, match v with Some (JFloat x) => Some x | _ => None end))
    in Heq.
  vm_compute in Heq. discriminate Heq.
Qed.

Lemma C8_seeded_runs_agree_witness :
  files (world_in_order TrainModel eight_varied 0) !! input_path TrainModel
  = files (world_in_order TrainModel eight_varied 1) !! input_path TrainModel
  ∧ ∃ g1 w1' g2 w2',
      run TrainModel (world_in_order TrainModel eight_varied 0) = (Ok g1, w1')
      ∧ run TrainModel (world_in_order TrainModel eight_varied 1) = (Ok g2, w2')
      ∧ g_model g1 = g_model g2
      ∧ ∀ k, k ∉ metric_keys →
             get_key k (g_metadata g1) = get_key k (g_metadata g2).
Proof.
  assert (files (world_in_order TrainModel eight_varied 0) !! input_path TrainModel
          = files (world_in_order TrainModel eight_varied 1)
              !! input_path TrainModel) as Hin by reflexivity.
  split; [exact Hin|].
  run_sample TrainModel (world_in_order TrainModel eight_varied 0) Hrun1.
  run_sample TrainModel (world_in_order TrainModel eight_varied 1) Hrun2.
  lazymatch type of Hrun1 with
  | _ = (Ok ?G1, ?W1) =>
    lazymatch type of Hrun2 with
    | _ = (Ok ?G2, ?W2) =>
      exists G1, W1, G2, W2; split; [exact Hrun1|]; split; [exact Hrun2|];
      revert Hrun1 Hrun2; generalize G1, G2; intros g1 g2 Hrun1 Hrun2
    end
  end.
  pose proof (C8_seeded_runs_agree _ _ _ _ _ _ _ Hin Hrun1 Hrun2)
    as (_ & _ & _ & _ & K1 & _ & K2 & _).
  split; [exact K1|exact K2].
Defined.

Lemma C9_bad_input_aborts_witness :
  (files empty_world !! input_path TrainModel = None
   ∨ files empty_world !! input_path TrainModel = Some Garbage
   ∨ files empty_world !! input_path TrainModel = Some (JsonRecords []))
  ∧ ∃ e, run TrainModel empty_world = (Raise e, empty_world)
         ∧ exit_code (Raise e : Res Globals) = 1%Z.
Proof.
  assert (files empty_world !! input_path TrainModel = None
          ∨ files empty_world !! input_path TrainModel = Some Garbage
          ∨ files empty_world !! input_path TrainModel = Some (JsonRecords []))
    as Hbad by (left; apply lookup_empty).
  split; [exact Hbad|].
  destruct (C9_bad_input_aborts TrainModel empty_world Hbad) as (e & K1 & K2 & _).
  by exists e.
Defined.

Lemma C10_one_hot_exclusive_witness :
  ∃ df cols X y,
    features TrainModel ten_records = Ok (df, cols, X, y)
    ∧ ∃ programs jupiter raydium,
        getitem df (program_key TrainModel) = Ok (StrSeries programs)
        ∧ getitem df "program_jupiter" = Ok (NumSeries jupiter)
        ∧ getitem df "program_raydium" = Ok (NumSeries raydium).
Proof.
  assert (features TrainModel ten_records
          = Ok (with_flags (trainModel_rows ten_records),
                [ "instructionCount"; "accountCount"; "dataSize"; "priorityFee";
                  "networkCongestion"; "program_jupiter"; "program_raydium" ],
                trainModel_vector <$> trainModel_rows ten_records,
                computeUnitsUsed <$> trainModel_rows ten_records)) as Hfeat
    by (vm_compute; reflexivity).
  eexists _, _, _, _. split; [exact Hfeat|].
  destruct (C10_one_hot_exclusive _ _ _ _ _ _ Hfeat)
    as (programs & jupiter & raydium & K1 & K2 & K3 & _).
  exists programs, jupiter, raydium.
  split; [exact K1|]. split; [exact K2|exact K3].
Defined.


(** * Further properties of the scripts *)

(** ** What the feature lines depend on *)

Lemma filter_filter_same {A} (p : A → bool) (l : list A) :
  List.filter p (List.filter p l) = List.filter p l.
Proof.
  induction l as [|x l IH]; [done|]. cbn. destruct (p x) eqn:E; [|done].
  cbn. by rewrite E, IH.
Qed.

Lemma filter_filter_comm {A} (p q : A → bool) (l : list A) :
  List.filter p (List.filter q l) = List.filter q (List.filter p l).
Proof.
  induction l as [|x l IH]; [done|]. cbn.
  destruct (p x) eqn:Ep, (q x) eqn:Eq; cbn; rewrite ?Ep, ?Eq; by rewrite ?IH.
Qed.

Lemma filter_twice {A} (p q : A → bool) (l : list A) :
  List.filter p (List.filter q (List.filter p (List.filter q l)))
  = List.filter p (List.filter q l).
Proof.
  by rewrite (filter_filter_comm q p (List.filter q l)), !filter_filter_same.
Qed.

Lemma filter_length_bound {A} (p : A → bool) (l : list A) :
  (length (List.filter p l) ≤ length l)%nat.
Proof. induction l as [|x l IH]; cbn; [done|]. destruct (p x); cbn; lia. Qed.

Lemma elem_of_filter_bool {A} (p : A → bool) (l : list A) x :
  x ∈ List.filter p l ↔ x ∈ l ∧ p x = true.
Proof. rewrite !list_elem_of_In. apply filter_In. Qed.

(** Filtering what has passed the filters changes nothing. *)
Lemma surviving_idemp s data : surviving s (surviving s data) = surviving s data.
Proof. destruct s; [apply filter_twice..|done]. Qed.

Lemma surviving_length s data : (length (surviving s data) ≤ length data)%nat.
Proof.
  destruct s; cbn; [| |done]; unfold trainModel_rows, priorityFee_rows.
  all: etransitivity; apply filter_length_bound.
Qed.

(** The feature lines of the three scripts in one equation. *)
Lemma features_surviving s data :
  data ≠ [] →
  features s data =
    let rows := surviving s data in
    if (match s with
        | TrainPriorityFeeML => length rows <? 50
        | _ => false
        end)%nat
    then exit 1
    else if existsb has_computeUnitsUsed data
    then Ok (match s with
             | TrainModel => with_flags rows
             | _ => imputed_frame rows
             end,
             match s with
             | TrainModel =>
               [ "instructionCount"; "accountCount"; "dataSize"; "priorityFee";
                 "networkCongestion"; "program_jupiter"; "program_raydium" ]
             | TrainPriorityFeeML =>
               [ "instructionCount"; "accountCount"; "computeUnitsUsed";
                 "slotTime"; "program_jupiter"; "program_raydium" ]
             | TrainSuccessClassifier =>
               [ "instructionCount"; "accountCount"; "computeUnitsUsed";
                 "priorityFee"; "slotTime"; "program_jupiter"; "program_raydium" ]
             end,
             feature_vector s rows <$> rows,
             target s <$> rows)
    else Raise (KeyError "computeUnitsUsed").
Proof.
  intros Hne. destruct s; cbn [features surviving feature_vector target].
  - by rewrite trainModel_features_rows.
  - by rewrite trainPriorityFeeML_features_rows.
  - by rewrite trainSuccessClassifier_features_rows.
Qed.

(** X1.  The feature lines of a script, given records that carry every key
    but possibly [computeUnitsUsed], fail in three cases only: on an empty
    record list every script raises [KeyError('success')] (the frame has no
    columns); on a non-empty list trainPriorityFeeML leaves with [exit(1)]
    exactly when fewer than 50 records pass its filters; and when no record
    at all has the key [computeUnitsUsed] the frame has no such column and
    every script raises [KeyError('computeUnitsUsed')] at its first use of
    it, trainPriorityFeeML only after its 50-row check.  A key that is there
    with [null] in every record does not fail. *)
Theorem features_failures s data e :
  features s data = Raise e ↔
    (data = [] ∧ e = KeyError "success")
    ∨ (s = TrainPriorityFeeML ∧ data ≠ []
       ∧ (length (priorityFee_rows data) < 50)%nat ∧ e = SystemExit 1)
    ∨ (data ≠ [] ∧ existsb has_computeUnitsUsed data = false
       ∧ (s = TrainPriorityFeeML → (50 ≤ length (priorityFee_rows data))%nat)
       ∧ e = KeyError "computeUnitsUsed").
Proof.
  destruct (decide (data = [])) as [->|Hne].
  - assert (features s [] = Raise (KeyError "success")) as -> by (by destruct s).
    split; [intros [= <-]; by left|].
    intros [[_ ->]|[(_ & ? & _)|(? & _)]]; done.
  - rewrite features_surviving by done. cbv zeta.
    destruct (existsb has_computeUnitsUsed data) eqn:Hkey.
    + destruct s; cbn [surviving].
      * split; [done|]. intros [[? _]|[(? & _)|(_ & ? & _)]]; done.
      * destruct (_ <? 50)%nat eqn:E.
        -- apply Nat.ltb_lt in E. split; [intros [= <-]; right; by left|].
           intros [[? _]|[(_ & _ & _ & ->)|(_ & ? & _)]]; done.
        -- apply Nat.ltb_ge in E. split; [done|].
           intros [[? _]|[(_ & _ & ? & _)|(_ & ? & _)]]; [done|lia|done].
      * split; [done|]. intros [[? _]|[(? & _)|(_ & ? & _)]]; done.
    + destruct s; cbn [surviving].
      * split; [intros [= <-]; do 2 right; done|].
        intros [[? _]|[(? & _)|(_ & _ & _ & ->)]]; done.
      * destruct (_ <? 50)%nat eqn:E.
        -- apply Nat.ltb_lt in E. split; [intros [= <-]; right; by left|].
           intros [[? _]|[(_ & _ & _ & ->)|(_ & _ & Hn & _)]]; [done..|].
           specialize (Hn eq_refl). lia.
        -- apply Nat.ltb_ge in E. split; [intros [= <-]; do 2 right; done|].
           intros [[? _]|[(_ & _ & ? & _)|(_ & _ & _ & ->)]]; [done|lia|done].
      * split; [intros [= <-]; do 2 right; done|].
        intros [[? _]|[(? & _)|(_ & _ & _ & ->)]]; done.
Qed.

(** X2.  What the feature lines return depends on the input only through
    the records that pass the script's filters and through whether the
    column [computeUnitsUsed] exists: two non-empty inputs with the same
    surviving records, both with or both without a record that has the key,
    give the same frame, feature list, [X] and [y] (or the same exception).
    In particular records that fail a filter and carry the key can be added
    or removed freely once some record carries it, and the median used for
    imputation never sees them. *)
Theorem features_depend_on_survivors s data1 data2 :
  data1 ≠ [] → data2 ≠ [] →
  existsb has_computeUnitsUsed data1 = existsb has_computeUnitsUsed data2 →
  surviving s data1 = surviving s data2 →
  features s data1 = features s data2.
Proof.
  intros Hne1 Hne2 Hkey Hsame. rewrite !features_surviving by done.
  by rewrite Hsame, Hkey.
Qed.

(** ** The training data of a successful run *)

Lemma safe_indexing_pairs {A B C} (f : C → A) (g : C → B) rows idx xs ys :
  safe_indexing (f <$> rows) idx = Ok xs →
  safe_indexing (g <$> rows) idx = Ok ys →
  Forall2 (λ x y, ∃ r, r ∈ rows ∧ x = f r ∧ y = g r) xs ys.
Proof.
  rewrite !safe_indexing_Ok. intros Fx. revert ys.
  induction Fx as [|i x idx xs Hi _ IH]; intros ys Fy.
  - apply Forall2_nil_inv_l in Fy as ->. constructor.
  - apply Forall2_cons_inv_l in Fy as (y & ys' & Hy & Fy & ->).
    constructor; [|by apply IH].
    apply list_lookup_fmap_Some in Hi as (r & -> & Hr).
    rewrite list_lookup_fmap, Hr in Hy. injection Hy as <-.
    exists r. split; [by eapply list_elem_of_lookup_2|done].
Qed.

Lemma target_of_survivor s data r :
  r ∈ surviving s data →
  match s with
  | TrainModel => is_Some (target s r)
  | TrainPriorityFeeML => ∃ q, target s r = Some q ∧ (0 < q)%Q
  | TrainSuccessClassifier => target s r = Some 0%Q ∨ target s r = Some 1%Q
  end.
Proof.
  destruct s; cbn [surviving target].
  - unfold trainModel_rows. rewrite elem_of_filter_bool. intros [_ Hcu].
    by apply bool_decide_eq_true in Hcu.
  - unfold priorityFee_rows. rewrite elem_of_filter_bool. intros [_ Hfee].
    eexists. split; [done|]. unfold has_fee, Qltb in Hfee.
    apply negb_true_iff in Hfee. apply Qnot_le_lt. intros Hle.
    apply Qle_bool_iff in Hle. congruence.
  - intros _. destruct (success r); [by right|by left].
Qed.

Lemma some_compute_units rows :
  (∃ r, r ∈ rows ∧ is_Some (computeUnitsUsed r))
  ∨ Forall (λ r, computeUnitsUsed r = None) rows.
Proof.
  induction rows as [|r rows [(r' & Hr' & Hcu)|IH]].
  - right. constructor.
  - left. exists r'. split; [by right|done].
  - destruct (computeUnitsUsed r) as [q|] eqn:E.
    + left. exists r. split; [by left|]. by rewrite E.
    + right. by constructor.
Qed.

Section Training.
Context `{Sklearn}.

(** What a successful run has read, prepared and split. *)
Lemma run_prepared s w g w' :
  run s w = (Ok g, w') →
  files w !! input_path s = Some (JsonRecords (g_data g))
  ∧ g_data g ≠ []
  ∧ g_X g = feature_vector s (surviving s (g_data g)) <$> surviving s (g_data g)
  ∧ g_y g = target s <$> surviving s (g_data g)
  ∧ ∃ w1, train_test_split (g_X g) (g_y g) (2 # 10) (Some 42%nat)
            (match s with TrainSuccessClassifier => Some (g_y g) | _ => None end) w
          = (Ok (g_X_train g, g_X_test g, g_y_train g, g_y_test g), w1).
Proof.
  intros Hrun.
  invert_run s Hrun;
    cbn [g_data g_X g_y g_X_train g_X_test g_y_train g_y_test input_path surviving].
  all: repeat split; try done. all: by eexists.
Qed.

(** X3.  The split keeps every feature row with its own target: in a
    successful run of any script, row [i] of [X_train] and entry [i] of
    [y_train] are the feature vector and the target of one and the same
    surviving record, and likewise for [X_test] and [y_test]; so the parts
    have as many targets as rows.  This holds for the stratified split of
    trainSuccessClassifier too. *)
Theorem split_keeps_pairs s w g w' :
  run s w = (Ok g, w') →
  let rows := surviving s (g_data g) in
  let paired := λ row t, ∃ r, r ∈ rows
                  ∧ row = feature_vector s rows r ∧ t = target s r in
  Forall2 paired (g_X_train g) (g_y_train g)
  ∧ Forall2 paired (g_X_test g) (g_y_test g).
Proof.
  intros (_ & _ & HX & Hy & w1 & Hsplit)%run_prepared. cbv zeta.
  apply train_test_split_inv in Hsplit. cbv zeta in Hsplit.
  destruct Hsplit as (train & test & _ & _ & _ & E1 & E2 & E3 & E4).
  rewrite HX in E1, E2. rewrite Hy in E3, E4.
  split; by eapply safe_indexing_pairs.
Qed.

(** X4.  The targets a successful run trains and tests on are well formed:
    in trainModel every target is a number (no NaN, by the [notna] filter);
    in trainPriorityFeeML every target is strictly positive, so the guard
    [if actual > 0] of the sample-prediction loop never takes its [else]
    branch; in trainSuccessClassifier every label is 0 or 1. *)
Theorem targets_well_formed s w g w' :
  run s w = (Ok g, w') →
  Forall (λ t, match s with
               | TrainModel => is_Some t
               | TrainPriorityFeeML => ∃ q, t = Some q ∧ (0 < q)%Q
               | TrainSuccessClassifier => t = Some 0%Q ∨ t = Some 1%Q
               end) (g_y g ++ g_y_train g ++ g_y_test g).
Proof.
  intros (_ & _ & _ & Hy & w1 & Hsplit)%run_prepared.
  apply train_test_split_inv in Hsplit. cbv zeta in Hsplit.
  destruct Hsplit as (train & test & _ & _ & _ & _ & _ & E3 & E4).
  assert (Forall (λ t, match s with
               | TrainModel => is_Some t
               | TrainPriorityFeeML => ∃ q, t = Some q ∧ (0 < q)%Q
               | TrainSuccessClassifier => t = Some 0%Q ∨ t = Some 1%Q
               end) (g_y g)) as Hall.
  { rewrite Hy. apply Forall_fmap, Forall_forall. intros r Hr.
    by apply target_of_survivor in Hr. }
  rewrite !Forall_app. split; [done|].
  rewrite Forall_forall in Hall.
  split; apply Forall_forall; intros t Ht; apply Hall.
  - by apply (safe_indexing_elem_of _ train (g_y_train g)).
  - by apply (safe_indexing_elem_of _ test (g_y_test g)).
Qed.

(** X5.  In a successful run every row of [X] has one cell per entry of
    [feature_columns], and [X] is free of NaN exactly when the script is
    trainModel (whose features are never absent) or at least one surviving
    record carries [computeUnitsUsed]: then the median exists and fills every
    gap; otherwise the whole imputed column stays NaN. *)
Theorem feature_rows_complete s w g w' :
  run s w = (Ok g, w') →
  Forall (λ row, length row = length (g_feature_columns g)) (g_X g)
  ∧ (Forall (Forall is_Some) (g_X g)
     ↔ s = TrainModel
       ∨ ∃ r, r ∈ surviving s (g_data g) ∧ is_Some (computeUnitsUsed r)).
Proof.
  intros Hrun.
  assert (surviving s (g_data g) ≠ []) as Hsurv.
  { apply run_prepared in Hrun as (_ & Hne & HX & _ & w1 & Hsplit).
    apply train_test_split_inv in Hsplit. cbv zeta in Hsplit.
    destruct Hsplit as (_ & _ & _ & Hn & _).
    intros Hnil. rewrite HX, Hnil in Hn. by apply Hn. }
  revert Hsurv.
  invert_run s Hrun; cbn [g_X g_feature_columns g_data surviving]; intros Hsurv.
  all: split; [apply Forall_fmap, Forall_forall; by intros r _|].
  - split; [by left|]. intros _. apply Forall_fmap, Forall_forall. intros r _.
    cbn. repeat (constructor; [by eexists|]). constructor.
  - split.
    + intros Hall. right.
      destruct (some_compute_units (priorityFee_rows data)) as [?|Hnone]; [done|].
      destruct (priorityFee_rows data) as [|r rows] eqn:E; [done|]. exfalso.
      apply Forall_cons in Hall as [Hrow _].
      apply Forall_cons in Hrow as [_ Hrow]. apply Forall_cons in Hrow as [_ Hrow].
      apply Forall_cons in Hrow as [Hcell _].
      rewrite imputed_absent in Hcell; [by destruct Hcell|done|by left].
    + intros [[=]|(r' & Hr' & Hcu)]. apply Forall_fmap, Forall_forall. intros r _.
      assert (¬ Forall (λ r, computeUnitsUsed r = None) (priorityFee_rows data))
        as Hsome.
      { rewrite Forall_forall. intros Hall. rewrite (Hall r' Hr') in Hcu.
        by destruct Hcu. }
      pose proof (imputed_present _ r Hsome) as [Hcell _].
      cbn. repeat (constructor; [done || by eexists|]). constructor.
  - split.
    + intros Hall. right.
      destruct (some_compute_units data) as [?|Hnone]; [done|].
      destruct data as [|r rows] eqn:E; [done|]. exfalso.
      apply Forall_cons in Hall as [Hrow _].
      apply Forall_cons in Hrow as [_ Hrow]. apply Forall_cons in Hrow as [_ Hrow].
      apply Forall_cons in Hrow as [Hcell _].
      rewrite imputed_absent in Hcell; [by destruct Hcell|done|by left].
    + intros [[=]|(r' & Hr' & Hcu)]. apply Forall_fmap, Forall_forall. intros r _.
      assert (¬ Forall (λ r, computeUnitsUsed r = None) data) as Hsome.
      { rewrite Forall_forall. intros Hall. rewrite (Hall r' Hr') in Hcu.
        by destruct Hcu. }
      pose proof (imputed_present _ r Hsome) as [Hcell _].
      cbn. repeat (constructor; [done || by eexists|]). constructor.
Qed.

(** X6.  The counts a successful run writes to its metadata agree with the
    data: [train_samples] and [test_samples] are the sizes of the two parts;
    [trained_on_transactions] (where written) is the number of surviving
    records; in trainPriorityFeeML [total_dataset] is the size of the input
    and at least 50 records, at most all of them, survive; and in the two
    regression scripts the two sample counts add up to the number of
    surviving records, the test count being a fifth of it rounded up. *)
Theorem metadata_counts s w g w' :
  run s w = (Ok g, w') →
  let n := length (surviving s (g_data g)) in
  get_key "train_samples" (g_metadata g) = Some (JInt (len (g_X_train g)))
  ∧ get_key "test_samples" (g_metadata g) = Some (JInt (len (g_X_test g)))
  ∧ (s ≠ TrainModel →
       get_key "trained_on_transactions" (g_metadata g) = Some (JInt (Z.of_nat n)))
  ∧ (s = TrainPriorityFeeML →
       get_key "total_dataset" (g_metadata g) = Some (JInt (len (g_data g)))
       ∧ (50 ≤ n ≤ length (g_data g))%nat)
  ∧ (s ≠ TrainSuccessClassifier →
       (len (g_X_train g) + len (g_X_test g))%Z = Z.of_nat n
       ∧ length (g_X_test g) = ((n + 4) / 5)%nat).
Proof.
  intros Hrun. cbv zeta.
  pose proof (surviving_length s (g_data g)) as Hle. revert Hle.
  invert_run s Hrun;
    cbn [g_metadata g_X_train g_X_test g_data surviving]; intros Hle.
  all: split; [done|]. all: split; [done|].
  all: split; [first [done | intros _; cbn; by rewrite ?length_fmap]|].
  all: split; [first [done | intros _; split; [done|];
                              apply Nat.ltb_ge in Hrows; lia]|].
  all: try done.
  all: intros _; apply shuffle_split_spec in Hsplit.
  all: destruct Hsplit as (train & test & Hp & Hn & _ & E1 & E2 & _).
  all: apply safe_indexing_length in E1, E2.
  all: apply Permutation_length in Hp.
  all: rewrite length_app, length_seq, !length_fmap in Hp.
  all: rewrite length_fmap in Hn.
  all: unfold len; split; lia.
Qed.


(** ** What a run does to the world *)

(** The worlds a run can end in: the one it came to its first write in
    (the one it started in, up to the threads it has joined and, after
    [os.makedirs], the directory [models]), possibly with something under
    the model path, possibly with something under both output paths. *)
Lemma run_world s w :
  ∃ w0,
    (entropy w0 = entropy w ∧ files w0 = files w
     ∧ (dirs w0 = dirs w ∨ (s ≠ TrainModel ∧ dirs w0 = {[ "models" ]} ∪ dirs w)))
    ∧ ((run s w).2 = w0
       ∨ (∃ f, (run s w).2 = written (model_path s) f w0)
       ∨ (∃ f f', (run s w).2
                  = written (metadata_path s) f' (written (model_path s) f w0))).
Proof.
  assert (∀ w0, w0 = w ∨ w0 = evaluated s w ∨ w0 = staged s w →
                entropy w0 = entropy w ∧ files w0 = files w
                ∧ (dirs w0 = dirs w
                   ∨ (s ≠ TrainModel ∧ dirs w0 = {[ "models" ]} ∪ dirs w)))
    as Hframe.
  { intros w0 [-> | [-> | ->]]; destruct s; cbn; (split; [done|]); (split; [done|]);
      first [by left | by right]. }
  destruct (run s w) as [[g|e] w'] eqn:Hrun; cbn [snd].
  { exists (staged s w). split; [apply Hframe; auto|].
    do 2 right. invert_run s Hrun; by eexists _, _. }
  apply run_Raise_inv in Hrun
    as [[_ ->] | (data & _ & [[_ ->] | (p & _ & [[_ ->] | (parts & _ & Hfit)])])].
  1-3: exists w; split; [apply Hframe; auto|by left].
  destruct parts as [[[X_train X_test] y_train] y_test].
  apply fit_lines_Raise in Hfit
    as [[_ ->] | [(_ & _ & ->) | [(_ & _ & ->)
        | [(_ & [-> | (rest & _ & ->)])
        | (_ & m & [-> | (rest & _ & ->)])]]]].
  - exists w. split; [apply Hframe; auto|by left].
  - exists (evaluated s w). split; [apply Hframe; auto|by left].
  - exists (evaluated s w). split; [apply Hframe; auto|by left].
  - exists (staged s w). split; [apply Hframe; auto|by left].
  - exists (staged s w). split; [apply Hframe; auto|]. right; left. by eexists.
  - exists (staged s w). split; [apply Hframe; auto|]. right; left. by eexists.
  - exists (staged s w). split; [apply Hframe; auto|]. do 2 right. by eexists _, _.
Qed.

(** X7.  Whatever its outcome, a run touches nothing but its own outputs:
    it never draws from numpy's global generator (every random choice is
    made with the seed the script passes; an unseeded split or forest would
    advance [entropy]), creates no directory other than [models] (and
    trainModel none at all), leaves its input file as it was, and changes no
    file other than its model file and its metadata file. *)
Theorem run_frame s w :
  let w' := (run s w).2 in
  entropy w' = entropy w
  ∧ (dirs w' = dirs w ∨ (s ≠ TrainModel ∧ dirs w' = {[ "models" ]} ∪ dirs w))
  ∧ files w' !! input_path s = files w !! input_path s
  ∧ ∀ path, path ≠ model_path s → path ≠ metadata_path s →
            files w' !! path = files w !! path.
Proof.
  cbv zeta.
  assert (input_path s ≠ model_path s ∧ input_path s ≠ metadata_path s)
    as [Hin1 Hin2] by (by destruct s).
  destruct (run_world s w) as (w0 & (He & Hf & Hdirs) & Hw').
  destruct Hw' as [-> | [(f & ->) | (f & f' & ->)]];
    cbn [entropy dirs files written].
  - repeat split; try done. all: by rewrite Hf.
  - repeat split; try done.
    + rewrite lookup_insert_ne by done. by rewrite Hf.
    + intros path H1 H2. rewrite lookup_insert_ne by done. by rewrite Hf.
  - repeat split; try done.
    + rewrite !lookup_insert_ne by done. by rewrite Hf.
    + intros path H1 H2. rewrite !lookup_insert_ne by done. by rewrite Hf.
Qed.

(** A seeded split returns the same parts in every world. *)
Lemma train_test_split_any_world X y ts seed st w r w1 w2 :
  train_test_split X y ts (Some seed) st w = (Ok r, w1) →
  train_test_split X y ts (Some seed) st w2 = (Ok r, w2).
Proof.
  intros E. pose proof (train_test_split_seeded X y ts seed st w w2) as Hs.
  pose proof (train_test_split_world X y ts seed st w2) as Hw.
  rewrite E in Hs. cbn in Hs.
  destruct (train_test_split X y ts (Some seed) st w2) as [r2 w2'].
  cbn in Hs, Hw. by subst.
Qed.

Lemma made_twice path (w : World) : made path (made path w) = made path w.
Proof.
  unfold made. cbn. f_equal.
  by rewrite (assoc_L (∪)), (idemp_L (∪) {[path]}).
Qed.

(** X8.  Running trainModel or trainPriorityFeeML again right after a
    successful run succeeds again: the run reads nothing that it writes.  The
    second run makes the same split and fits the same forest (both are
    seeded), writes a metadata file that agrees with the first at every key
    that does not hold a metric, and changes no other file and no directory.
    Its metric values are those of the first run when the threads of its
    [predict] finish in the order of the first run's; with [n_jobs=-1]
    nothing makes them do so. *)
Theorem rerun_agrees s w g w' :
  s ≠ TrainSuccessClassifier →
  run s w = (Ok g, w') →
  ∃ g2 w2,
    run s w' = (Ok g2, w2)
    ∧ g_X_train g2 = g_X_train g ∧ g_X_test g2 = g_X_test g
    ∧ g_y_train g2 = g_y_train g ∧ g_y_test g2 = g_y_test g
    ∧ g_model g2 = g_model g
    ∧ (∀ k, k ∉ metric_keys →
            get_key k (g_metadata g2) = get_key k (g_metadata g))
    ∧ (threads w' 0%nat = threads w 0%nat → g2 = g)
    ∧ dirs w2 = dirs w'
    ∧ files w2 !! metadata_path s = Some (JsonObject (g_metadata g2))
    ∧ ∀ path, path ≠ metadata_path s → files w2 !! path = files w' !! path.
Proof.
  intros Hs Hrun.
  invert_run s Hrun; [| |done].
  - cbn [denied failing joined written made] in *.
    erewrite (run_fit TrainModel _ data _ (_, _, _, _)); cycle 1.
    { cbn [files written input_path]. rewrite !lookup_insert_ne by done.
      exact Hload. }
    { cbn [features]. rewrite trainModel_features_rows by done.
      rewrite Hkey. reflexivity. }
    { cbn [split_lines]. cbv [trainModel_split].
      exact (train_test_split_any_world _ _ _ _ _ _ _ _ _ Hsplit). }
    cbn [fit_lines]. cbv [trainModel_fit]. unfold mbind at 1, M_bind at 1.
    unfold fit, mbind, M_bind, check_random_state, lift.
    cbn [random_state]. rewrite Hfit.
    rewrite forest_predict_inv by done.
    unfold joblib_dump, json_dump, write_file.
    cbn [denied failing joined written made].
    rewrite bool_decide_eq_false_2 by done. rewrite Hdumpf.
    cbn [denied failing joined written made].
    rewrite bool_decide_eq_false_2 by done. rewrite Hmetaf.
    eexists _, _. split; [reflexivity|].
    cbn [g_X_train g_X_test g_y_train g_y_test g_model g_metadata
         metadata_path model_path dirs files threads joined written made].
    do 5 (split; [done|]).
    split.
    { intros k Hk. cbn [get_key].
      repeat (match goal with
              | |- context [String.eqb k ?c] =>
                destruct (String.eqb_spec k c) as [->|_];
                [first [reflexivity
                       | exfalso; apply Hk; apply list_elem_of_In; cbn; tauto]|]
              end).
      reflexivity. }
    split; [by intros ->|]. split; [done|].
    split; [by rewrite lookup_insert_eq|].
    intros path Hpath. rewrite !(lookup_insert_ne _ "data/model_metadata.json") by done.
    destruct (decide (path = "data/model.pkl")) as [->|Hp].
    + by rewrite !lookup_insert_eq.
    + by rewrite !lookup_insert_ne by done.
  - cbn [denied failing joined written made] in *.
    erewrite (run_fit TrainPriorityFeeML _ data _ (_, _, _, _)); cycle 1.
    { cbn [files written made input_path]. rewrite !lookup_insert_ne by done.
      exact Hload. }
    { cbn [features]. rewrite trainPriorityFeeML_features_rows by done.
      cbv zeta. rewrite Hrows, Hkey. reflexivity. }
    { cbn [split_lines]. cbv [trainPriorityFeeML_split].
      exact (train_test_split_any_world _ _ _ _ _ _ _ _ _ Hsplit). }
    cbn [fit_lines]. cbv [trainPriorityFeeML_fit]. unfold mbind at 1, M_bind at 1.
    unfold fit, mbind, M_bind, check_random_state, lift.
    cbn [random_state]. rewrite Hfit.
    rewrite forest_predict_inv by done.
    unfold os_makedirs, joblib_dump, json_dump, write_file.
    cbn [denied failing joined written made].
    rewrite bool_decide_eq_false_2 by done.
    cbn [denied failing joined written made].
    rewrite bool_decide_eq_false_2 by done. rewrite Hdumpf.
    cbn [denied failing joined written made].
    rewrite bool_decide_eq_false_2 by done. rewrite Hmetaf.
    eexists _, _. split; [reflexivity|].
    cbn [g_X_train g_X_test g_y_train g_y_test g_model g_metadata
         metadata_path model_path dirs files threads joined written made].
    do 5 (split; [done|]).
    split.
    { intros k Hk. cbn [get_key].
      repeat (match goal with
              | |- context [String.eqb k ?c] =>
                destruct (String.eqb_spec k c) as [->|_];
                [first [reflexivity
                       | exfalso; apply Hk; apply list_elem_of_In; cbn; tauto]|]
              end).
      reflexivity. }
    split; [by intros ->|].
    split; [by rewrite (assoc_L (∪)), (idemp_L (∪) {[ "models" ]})|].
    split; [by rewrite lookup_insert_eq|].
    intros path Hpath.
    rewrite !(lookup_insert_ne _ "models/priority_fee_metadata.json") by done.
    destruct (decide (path = "models/priority_fee_model.pkl")) as [->|Hp].
    + by rewrite !lookup_insert_eq.
    + by rewrite !lookup_insert_ne by done.
Qed.

(** X9.  When the forest never fails to fit, a run of trainModel or of
    trainPriorityFeeML succeeds if and only if the input file holds a record
    array in which some record has the key [computeUnitsUsed] and of which
    enough records pass the filters (2 for trainModel, so that the training
    part is not empty; 50 for trainPriorityFeeML, by its check), and the
    paths it writes can be written in full: the directory [models]
    (trainPriorityFeeML only), the model file and the metadata file. *)
Theorem regressor_succeeds_iff s w :
  s ≠ TrainSuccessClassifier →
  (∀ params seed X y, ∃ m, forest_fit RandomForestRegressor params seed X y = Ok m) →
  (∃ g w', run s w = (Ok g, w'))
  ↔ (∃ data,
       files w !! input_path s = Some (JsonRecords data)
       ∧ existsb has_computeUnitsUsed data = true
       ∧ ((match s with TrainModel => 2 | _ => 50 end)
          ≤ length (surviving s data))%nat
       ∧ (s = TrainPriorityFeeML → "models" ∉ denied w)
       ∧ (model_path s ∉ denied w) ∧ failing w !! model_path s = None
       ∧ (metadata_path s ∉ denied w) ∧ failing w !! metadata_path s = None).
Proof.
  intros Hs Hfit. split.
  - intros (g & w' & Hrun).
    invert_run s Hrun; [| |done];
      cbn [input_path model_path metadata_path surviving
           denied failing joined written made] in *.
    all: eexists; split; [exact Hload|]; split; [exact Hkey|].
    all: apply train_test_split_inv in Hsplit; cbv zeta in Hsplit.
    all: destruct Hsplit as (_ & _ & _ & Hn & _).
    all: rewrite ceiling_fifth, length_fmap in Hn.
    + repeat split; try done.
      destruct (length (trainModel_rows data)) as [|[|n]]; [done..|lia].
    + apply Nat.ltb_ge in Hrows. repeat split; done.
  - intros (data & Hin & Hkey & Hrows & Hdir & Hmodel & Hmodelf & Hmeta & Hmetaf).
    assert (data ≠ []) as Hne.
    { intros ->. destruct s; cbn in Hrows; lia. }
    pose proof (features_surviving s data Hne) as Hfeat. cbv zeta in Hfeat.
    rewrite Hkey in Hfeat.
    assert ((match s with
             | TrainPriorityFeeML => length (surviving s data) <? 50
             | _ => false
             end)%nat = false) as Hlong.
    { destruct s; [done| |done]. apply Nat.ltb_ge. exact Hrows. }
    rewrite Hlong in Hfeat.
    assert (2 ≤ length (surviving s data))%nat as Htwo by (destruct s; lia).
    destruct (shuffle_split_total
                (feature_vector s (surviving s data) <$> surviving s data)
                (target s <$> surviving s data) 42 w) as [parts Hsplit].
    { by rewrite !length_fmap. }
    { by rewrite length_fmap. }
    destruct (regression_fit_succeeds s w data
                (match s with
                 | TrainModel => with_flags (surviving s data)
                 | _ => imputed_frame (surviving s data)
                 end,
                 match s with
                 | TrainModel =>
                   [ "instructionCount"; "accountCount"; "dataSize"; "priorityFee";
                     "networkCongestion"; "program_jupiter"; "program_raydium" ]
                 | TrainPriorityFeeML =>
                   [ "instructionCount"; "accountCount"; "computeUnitsUsed";
                     "slotTime"; "program_jupiter"; "program_raydium" ]
                 | TrainSuccessClassifier =>
                   [ "instructionCount"; "accountCount"; "computeUnitsUsed";
                     "priorityFee"; "slotTime"; "program_jupiter";
                     "program_raydium" ]
                 end,
                 feature_vector s (surviving s data) <$> surviving s data,
                 target s <$> surviving s data) parts Hs Hfit Hdir Hmodel Hmodelf
                Hmeta Hmetaf) as (g & w' & Hrun).
    exists g, w'. rewrite <- Hrun.
    apply (run_fit s w data _ parts Hin Hfeat).
    destruct s; [exact Hsplit..|done].
Qed.

(** With fewer than two rows the training part would be empty, with or
    without stratification. *)
Lemma train_test_split_short X y seed st w :
  length y = length X → (length X < 2)%nat →
  train_test_split X y (2 # 10) (Some seed) st w = (Raise ValueError, w).
Proof.
  intros Hy Hn. unfold train_test_split.
  rewrite Hy, Nat.eqb_refl. cbn [negb]. rewrite ceiling_fifth.
  destruct (length X) as [|[|n]]; [done..|lia].
Qed.

(** X13.  trainModel and trainSuccessClassifier have no check of their own
    on the number of rows: when the input is a non-empty record array with
    the key [computeUnitsUsed] in some record, of which fewer than two
    records survive (for trainModel, for instance, when the key holds [null]
    in every successful record), the run stops in [train_test_split] with
    [ValueError] (the training part would be empty) and leaves the world as
    it was. *)
Theorem too_few_rows s w data :
  s ≠ TrainPriorityFeeML →
  files w !! input_path s = Some (JsonRecords data) →
  data ≠ [] →
  existsb has_computeUnitsUsed data = true →
  (length (surviving s data) < 2)%nat →
  run s w = (Raise ValueError, w).
Proof.
  intros Hs Hin Hne Hkey Hrows.
  pose proof (features_surviving s data Hne) as Hfeat. cbv zeta in Hfeat.
  rewrite Hkey in Hfeat.
  destruct s; [|done|]; cbn [surviving] in *.
  - rewrite (run_split TrainModel w data _ Hin Hfeat).
    unfold mbind, M_bind. cbn [split_lines]. cbv [trainModel_split].
    by rewrite train_test_split_short by (by rewrite ?length_fmap).
  - rewrite (run_split TrainSuccessClassifier w data _ Hin Hfeat).
    unfold mbind, M_bind. cbn [split_lines]. cbv [trainSuccessClassifier_split].
    by rewrite train_test_split_short by (by rewrite ?length_fmap).
Qed.

(** X14.  The metadata of a successful run describes the model beside it:
    the model file holds the forest that was fitted, with seed 42, on the
    training part only; [model_type] and [n_estimators] are the class and
    the size of that forest; and every metric in the metadata is computed
    from the targets of the test part and that forest's predictions on the
    test rows (the first parallel call of the run), [accuracy_percent] being
    the R² score (the accuracy, for the classifier) times 100. *)
Theorem metadata_describes_model s w g w' :
  run s w = (Ok g, w') →
  ∃ params,
    forest_fit (model_kind s) params 42 (g_X_train g) (g_y_train g) = Ok (g_model g)
    ∧ files w' !! model_path s = Some (Pickle (g_model g))
    ∧ get_key "model_type" (g_metadata g)
      = Some (JStr (match model_kind s with
                    | RandomForestRegressor => "RandomForestRegressor"
                    | RandomForestClassifier => "RandomForestClassifier"
                    end))
    ∧ get_key "n_estimators" (g_metadata g)
      = Some (JInt (Z.of_nat (n_estimators params)))
    ∧ let y_test := g_y_test g in
      let y_pred := predict (threads w 0%nat) (g_model g) (g_X_test g) in
      let metric := λ k x, get_key k (g_metadata g) = Some (JFloat x) in
      match s with
      | TrainSuccessClassifier =>
        metric "accuracy" (accuracy_score y_test y_pred)
        ∧ metric "precision" (precision_score y_test y_pred)
        ∧ metric "recall" (recall_score y_test y_pred)
        ∧ metric "f1_score" (f1_score y_test y_pred)
        ∧ metric "accuracy_percent" (float_mul (accuracy_score y_test y_pred) 100)
      | _ =>
        metric "mae" (mean_absolute_error y_test y_pred)
        ∧ metric "r2_score" (r2_score y_test y_pred)
        ∧ metric "accuracy_percent" (float_mul (r2_score y_test y_pred) 100)
        ∧ (s = TrainPriorityFeeML →
           metric "rmse" (np_sqrt (mean_squared_error y_test y_pred)))
      end.
Proof.
  intros Hrun.
  invert_run s Hrun;
    cbn [g_X_train g_y_train g_X_test g_y_test g_model g_metadata model_kind
         model_path].
  all: eexists; split; [exact Hfit|].
  all: split; [cbn [files written made joined];
               rewrite lookup_insert_ne by done; by rewrite lookup_insert_eq|].
  all: repeat split; done.
Qed.

End Training.


(** ** The exceptions a run can end on *)

Lemma features_Raise s data e :
  features s data = Raise e →
  e = KeyError "success" ∨ e = KeyError "computeUnitsUsed"
  ∨ (s = TrainPriorityFeeML ∧ e = SystemExit 1).
Proof.
  destruct (decide (data = [])) as [->|Hne].
  - destruct s; cbn; intros [= <-]; by left.
  - rewrite features_surviving by done. cbv zeta.
    destruct (match s with TrainPriorityFeeML => _ | _ => false end) eqn:E.
    + destruct s; [done| |done]. intros [= <-]. by do 2 right.
    + destruct (existsb _ _); [done|]. intros [= <-]. right. by left.
Qed.

Section Aborts.
Context `{Sklearn}.

Lemma object_error_cases (o : list (string * JValue)) :
  object_error o = ValueError ∨ object_error o = KeyError "success".
Proof.
  unfold object_error. destruct o as [|kv o]; [by right|].
  destruct (omap _ _) as [|n ns]; [by left|].
  destruct (forallb _ _); [by right|by left].
Qed.

Lemma json_load_Raise path w e w1 :
  json_load path w = (Raise e, w1) →
  e = FileNotFoundError path ∨ e = JSONDecodeError ∨ e = UnicodeDecodeError
  ∨ e = ValueError ∨ e = KeyError "success".
Proof.
  unfold json_load.
  destruct (files w !! path) as [[| |o|]|]; intros [= <- <-]; auto.
  destruct (object_error_cases o) as [-> | ->]; auto.
Qed.

Lemma train_test_split_Raise X y seed st w e w1 :
  train_test_split X y (2 # 10) (Some seed) st w = (Raise e, w1) →
  e = ValueError
  ∨ ∃ labels, st = Some labels
      ∧ (e = IndexError ∨ ∃ a b, stratified_indices seed labels a b = Raise e).
Proof.
  destruct st as [labels|].
  - unfold train_test_split.
    destruct (negb _); [intros [= <- <-]; by left|].
    destruct (_ =? 0)%nat; [intros [= <- <-]; by left|].
    unfold mbind, M_bind, check_random_state, lift, mret, M_ret.
    cbn -[safe_indexing].
    destruct (stratified_indices _ _ _ _) as [[train test]|e1] eqn:Hidx.
    2: { intros [= <- <-]. right. eexists. split; [done|]. right. by eexists _, _. }
    intros Hrun. right. exists labels. split; [done|]. left.
    repeat match type of Hrun with
    | context [safe_indexing ?l ?i] =>
      let E := fresh "E" in
      destruct (safe_indexing l i) eqn:E;
        [|apply safe_indexing_Raise in E; injection Hrun as <- <-; exact E]
    end.
    done.
  - intros Hrun. left.
    destruct (decide (length y = length X)) as [Hy|Hy].
    + destruct (decide (2 ≤ length X)%nat) as [Hn|Hn].
      * destruct (shuffle_split_total X y seed w Hy Hn) as [r Hr]. congruence.
      * rewrite shuffle_split_short in Hrun by (done || lia). congruence.
    + unfold train_test_split in Hrun.
      destruct (length X =? length y)%nat eqn:E;
        [apply Nat.eqb_eq in E; congruence|].
      cbn [negb] in Hrun. unfold raise in Hrun. by injection Hrun as <- <-.
Qed.

(** X12.  A run on an input file that is not a JSON object with a key
    [success] (such an object is a table by columns to pandas, and is not
    modelled) and that aborts ends on one of a short list of exceptions,
    each with exit status 1, unless scikit-learn itself raised in [fit] or in
    the stratified split: the input file is missing ([FileNotFoundError]),
    is text but not JSON ([JSONDecodeError]), is not text
    ([UnicodeDecodeError], for a pickle), or is a JSON object pandas cannot
    make a frame of ([ValueError]); the frame has no column [success] (an
    empty array, or a JSON object) or no column [computeUnitsUsed] (no record
    has the key); the split finds nothing to train on ([ValueError]); a path
    cannot be written ([OSError]); and, in trainPriorityFeeML alone,
    [exit(1)] of the 50-row check.  [IndexError] can only come from
    trainSuccessClassifier (its stratified index arrays, the probability
    column, the confusion matrix), and trainModel never creates the
    directory [models]. *)
Theorem run_aborts s w e w' :
  (∀ o, files w !! input_path s = Some (JsonObject o) → get_key "success" o = None) →
  run s w = (Raise e, w') →
  (e ∈ [ FileNotFoundError (input_path s); JSONDecodeError; UnicodeDecodeError;
         ValueError; KeyError "success"; KeyError "computeUnitsUsed";
         OSError (model_path s); OSError (metadata_path s) ]
         ++ match s with
            | TrainModel => []
            | TrainPriorityFeeML => [ SystemExit 1; OSError "models" ]
            | TrainSuccessClassifier => [ IndexError; OSError "models" ]
            end
   ∧ exit_code (Raise e : Res Globals) = 1%Z)
  ∨ (∃ params X y, forest_fit (model_kind s) params 42 X y = Raise e)
  ∨ (s = TrainSuccessClassifier
     ∧ ∃ labels a b, stratified_indices 42 labels a b = Raise e).
Proof.
  intros _ Hrun.
  assert (∀ l : list Exception,
            e ∈ l → (∀ c, e ≠ SystemExit c) ∨ e = SystemExit 1 →
            e ∈ l ∧ exit_code (Raise e : Res Globals) = 1%Z) as Hcode.
  { intros l Hl [Hc| ->]; (split; [done|]); [|done].
    destruct e; try done. by destruct (Hc code). }
  apply run_Raise_inv in Hrun
    as [[Hload _]
       | (data & _ & [[Hfeat _]
                     | (p & _ & [[Hsplit _] | (parts & _ & Hfit)])])].
  - apply json_load_Raise in Hload as [-> | [-> | [-> | [-> | ->]]]];
      left; apply Hcode; try (left; by intros c);
      apply list_elem_of_In; cbn; auto 10.
  - apply features_Raise in Hfeat as [-> | [-> | [-> ->]]];
      left; apply Hcode; try (left; by intros c); try (by right);
      apply list_elem_of_In; cbn; auto 12.
  - destruct p as [[[df cols] X] y].
    destruct s; cbn [split_lines] in Hsplit;
      cbv [trainModel_split trainPriorityFeeML_split trainSuccessClassifier_split]
        in Hsplit.
    all: apply train_test_split_Raise in Hsplit
           as [-> | (labels & Hst & [-> | (a & b & Hidx)])];
         try discriminate Hst;
         first [ right; right; split; [done|]; by eexists _, _, _
               | left; apply Hcode;
                 [apply list_elem_of_In; cbn; auto 12|left; by intros c] ].
  - destruct parts as [[[X_train X_test] y_train] y_test].
    apply fit_lines_Raise in Hfit
      as [[(params & _ & Hforest) _]
         | [(-> & -> & _)
         | [(Hs & -> & _)
         | [(-> & _)
         | (-> & _)]]]].
    + right; left. by eexists _, _, _.
    + left. apply Hcode; [apply list_elem_of_In; cbn; auto 12|left; by intros c].
    + left. apply Hcode; [|left; by intros c].
      destruct s; [done|..]; apply list_elem_of_In; cbn; auto 12.
    + left. apply Hcode; [|left; by intros c].
      apply list_elem_of_In; cbn; auto 12.
    + left. apply Hcode; [|left; by intros c].
      apply list_elem_of_In; cbn; auto 12.
Qed.

End Aborts.

(** ** The median and the imputation *)

#[local] Instance Qle_reflexive : Reflexive Qle.
Proof. intros x. apply Qle_refl. Qed.

#[local] Instance Qle_transitive : Transitive Qle.
Proof. intros x y z. apply Qle_trans. Qed.

#[local] Instance Qle_total : Total Qle.
Proof.
  intros x y. destruct (Qlt_le_dec x y); [left; by apply Qlt_le_weak|by right].
Qed.

Lemma StronglySorted_lookup_le {A} (R : relation A) `{!Reflexive R} s i j x y :
  StronglySorted R s → s !! i = Some x → s !! j = Some y → (i ≤ j)%nat → R x y.
Proof.
  intros Hs. revert i j. induction Hs as [|z s Hs IH Hall]; intros i j Hi Hj Hij.
  - done.
  - destruct i as [|i], j as [|j]; cbn in *.
    + by simplify_eq.
    + injection Hi as <-. rewrite Forall_forall in Hall.
      apply Hall. by eapply list_elem_of_lookup_2.
    + lia.
    + apply (IH i j); [done..|lia].
Qed.

Lemma filter_all {A} (P : A → Prop) `{!∀ x, Decision (P x)} (l : list A) :
  Forall P l → filter P l = l.
Proof.
  induction 1 as [|x l Hx _ IH]; [done|].
  by rewrite filter_cons_True, IH.
Qed.

Lemma filter_take_length {A} (P : A → Prop) `{!∀ x, Decision (P x)}
    (l : list A) j :
  Forall P (take j l) → (j ≤ length l)%nat → (j ≤ length (filter P l))%nat.
Proof.
  intros Hall Hj. rewrite <- (take_drop j l), filter_app, length_app.
  rewrite (filter_all P (take j l)) by done. rewrite length_take. lia.
Qed.

Lemma filter_drop_length {A} (P : A → Prop) `{!∀ x, Decision (P x)}
    (l : list A) j :
  Forall P (drop j l) → (length l - j ≤ length (filter P l))%nat.
Proof.
  intros Hall. rewrite <- (take_drop j l) at 2. rewrite filter_app, length_app.
  rewrite (filter_all P (drop j l)) by done. rewrite length_drop. lia.
Qed.

(** In a sorted list everything up to position [k] is at most the element
    there, and everything from [k] on is at least it. *)
Lemma sorted_count_le (s : list Q) k x m :
  StronglySorted Qle s → s !! k = Some x → (x <= m)%Q →
  (k + 1 ≤ length (filter (λ z, (z <= m)%Q) s))%nat.
Proof.
  intros Hs Hk Hx. apply filter_take_length.
  - apply Forall_forall. intros z Hz.
    apply list_elem_of_lookup in Hz as [i Hi].
    apply lookup_take_Some in Hi as [Hi Hlt].
    etransitivity; [|exact Hx].
    apply (StronglySorted_lookup_le Qle s i k); [done..|lia].
  - apply lookup_lt_Some in Hk. lia.
Qed.

Lemma sorted_count_ge (s : list Q) k y m :
  StronglySorted Qle s → s !! k = Some y → (m <= y)%Q →
  (length s - k ≤ length (filter (λ z, (m <= z)%Q) s))%nat.
Proof.
  intros Hs Hk Hy. apply filter_drop_length.
  apply Forall_forall. intros z Hz.
  apply list_elem_of_lookup in Hz as [i Hi].
  rewrite lookup_drop in Hi.
  etransitivity; [exact Hy|].
  apply (StronglySorted_lookup_le Qle s k (k + i)); [done..|lia].
Qed.

(** With an odd number of values [median_of] is the middle one: a value of
    the list with more than half of the values at most it and more than half
    at least it. *)
Lemma median_of_odd (l : list Q) :
  Nat.odd (length l) = true →
  ∃ q, median_of l = Some q ∧ q ∈ l
       ∧ (length l < 2 * length (filter (λ z, (z <= q)%Q) l))%nat
       ∧ (length l < 2 * length (filter (λ z, (q <= z)%Q) l))%nat.
Proof.
  unfold median_of.
  pose proof (merge_sort_Permutation Qle l) as Hp.
  pose proof (StronglySorted_merge_sort Qle l) as Hs.
  rewrite <- (Permutation_length Hp).
  assert (∀ q, length (filter (λ z, (z <= q)%Q) l)
               = length (filter (λ z, (z <= q)%Q) (merge_sort Qle l))) as Hle
    by (intros q; by rewrite Hp).
  assert (∀ q, length (filter (λ z, (q <= z)%Q) l)
               = length (filter (λ z, (q <= z)%Q) (merge_sort Qle l))) as Hge
    by (intros q; by rewrite Hp).
  assert (∀ a, a ∈ merge_sort Qle l → a ∈ l) as Hin by (intros a; by rewrite Hp).
  revert Hs Hin Hle Hge. generalize (merge_sort Qle l) as s. clear Hp.
  intros s Hs Hin Hle Hge Hodd. cbv zeta.
  rewrite <- Nat.negb_odd, Hodd. cbn [negb].
  apply Nat.odd_spec in Hodd as [c Hc].
  pose proof (Nat.div_mod_eq (length s) 2) as Hdiv.
  pose proof (Nat.mod_upper_bound (length s) 2 ltac:(lia)) as Hmod.
  assert (length s / 2 = c)%nat as Hk by lia. rewrite Hk.
  destruct (s !! c) as [q|] eqn:Hq.
  2: { apply lookup_ge_None in Hq. lia. }
  exists q. split; [done|]. split; [by eapply Hin, list_elem_of_lookup_2|].
  pose proof (sorted_count_le s _ _ q Hs Hq ltac:(apply Qle_refl)) as C1.
  pose proof (sorted_count_ge s _ _ q Hs Hq ltac:(apply Qle_refl)) as C2.
  rewrite Hle, Hge. lia.
Qed.

Lemma elem_of_omap_id {A} (l : list (option A)) a : a ∈ omap id l → Some a ∈ l.
Proof. intros (x & Hx & E)%list_elem_of_omap. cbn in E. by subst. Qed.

(** X10.  [column.fillna(column.median())], as trainPriorityFeeML and
    trainSuccessClassifier apply it to [computeUnitsUsed], never raises on a
    numeric column; it keeps every cell that holds a number and puts one and
    the same value [m] in every NaN cell.  [m] is NaN exactly when the whole
    column is NaN.  When the number of cells that hold a number is odd, [m]
    is one of these numbers, the middle one: more than half of them are at
    most [m] and more than half are at least [m].  (With an even number
    pandas takes the mean of the two middle values, in float64; nothing is
    said about that case here.) *)
Theorem median_imputation (l : list (option Q)) :
  ∃ m cells,
    median (NumSeries l) = Ok m
    ∧ fillna (NumSeries l) m = NumSeries cells
    ∧ (∀ i x, l !! i = Some x → cells !! i = Some (if x is Some _ then x else m))
    ∧ (m = None ↔ Forall (λ x, x = None) l)
    ∧ (Nat.odd (length (omap id l)) = true →
       ∃ q, m = Some q ∧ Some q ∈ l
            ∧ (length (omap id l)
               < 2 * length (filter (λ z, (z <= q)%Q) (omap id l)))%nat
            ∧ (length (omap id l)
               < 2 * length (filter (λ z, (q <= z)%Q) (omap id l)))%nat).
Proof.
  exists (median_of (omap id l)), (fill (median_of (omap id l)) <$> l).
  split; [done|]. split; [done|]. split; [|split].
  - intros i x Hi. rewrite list_lookup_fmap, Hi. by destruct x.
  - rewrite median_of_None. induction l as [|[q|] l IH]; cbn.
    + by split.
    + split; [done|]. by intros [? _]%Forall_cons.
    + rewrite IH, Forall_cons. split; [by split|by intros [_ ?]].
  - intros Hodd.
    destruct (median_of_odd _ Hodd) as (q & Hm & Hq & C1 & C2).
    exists q. split; [exact Hm|]. split; [by apply elem_of_omap_id|].
    split; [exact C1|exact C2].
Qed.

(** ** The composition report *)

Lemma filter_negb_length {A} (p : A → bool) (l : list A) :
  (length (List.filter p l) + length (List.filter (negb ∘ p) l) = length l)%nat.
Proof.
  induction l as [|x l IH]; [done|]. cbn. destruct (p x); cbn; lia.
Qed.

Lemma filter_id_fmap {A} (p : A → bool) (l : list A) :
  length (List.filter id (p <$> l)) = length (List.filter p l).
Proof.
  induction l as [|x l IH]; [done|]. cbn. destruct (p x); cbn; by rewrite IH.
Qed.

(** X11.  The composition report of trainSuccessClassifier: on an empty
    record list the first [df['success']] raises [KeyError('success')];
    otherwise the report shows the number of successful records, the number
    of failed records and the number of records, and the two counts add up
    to the third (every record is counted once). *)
Theorem composition_counts data :
  composition data =
    match data with
    | [] => Raise (KeyError "success")
    | _ => Ok (SNum (inject_Z (Z.of_nat (length (List.filter success data)))),
               SNum (inject_Z
                       (Z.of_nat (length (List.filter (negb ∘ success) data)))),
               length data)
    end
  ∧ (length (List.filter success data)
     + length (List.filter (negb ∘ success) data) = length data)%nat.
Proof.
  split; [|apply filter_negb_length].
  destruct data as [|r data]; [done|].
  unfold composition.
  cbn [pd_DataFrame columns_of getitem get_key String.eqb Ascii.eqb Bool.eqb app
       mbind Res_bind series_invert series_sum df_len series_len].
  rewrite <- list_fmap_compose, !filter_id_fmap, length_fmap. done.
Qed.


(** ** The further properties on the sample inputs *)

Lemma features_depend_on_survivors_witness :
  ten_records ≠ []
  ∧ trainModel_rows ten_records ≠ []
  ∧ existsb has_computeUnitsUsed ten_records
    = existsb has_computeUnitsUsed (trainModel_rows ten_records)
  ∧ surviving TrainModel ten_records
    = surviving TrainModel (trainModel_rows ten_records)
  ∧ features TrainModel ten_records
    = features TrainModel (trainModel_rows ten_records).
Proof.
  assert (ten_records ≠ []) as H1 by (vm_compute; discriminate).
  assert (trainModel_rows ten_records ≠ []) as H2 by (vm_compute; discriminate).
  assert (existsb has_computeUnitsUsed ten_records
          = existsb has_computeUnitsUsed (trainModel_rows ten_records)) as Hkey
    by (vm_compute; reflexivity).
  assert (surviving TrainModel ten_records
          = surviving TrainModel (trainModel_rows ten_records)) as H3
    by (vm_compute; reflexivity).
  split; [exact H1|]. split; [exact H2|]. split; [exact Hkey|]. split; [exact H3|].
  exact (features_depend_on_survivors TrainModel _ _ H1 H2 Hkey H3).
Defined.

Lemma split_keeps_pairs_witness :
  ∃ g w', run TrainSuccessClassifier (sample_world TrainSuccessClassifier)
            = (Ok g, w')
    ∧ Forall2 (λ row t, ∃ r, r ∈ g_data g
                 ∧ row = classifier_vector (column_median (g_data g)) r
                 ∧ t = Some (bool_to_Q (success r)))
        (g_X_train g) (g_y_train g).
Proof.
  on_sample_run TrainSuccessClassifier (sample_world TrainSuccessClassifier) g Hrun.
  exact (proj1 (split_keeps_pairs _ _ _ _ Hrun)).
Defined.

Lemma targets_well_formed_witness :
  ∃ g w', run TrainPriorityFeeML (sample_world TrainPriorityFeeML) = (Ok g, w')
    ∧ Forall (λ t, ∃ q, t = Some q ∧ (0 < q)%Q)
        (g_y g ++ g_y_train g ++ g_y_test g).
Proof.
  on_sample_run TrainPriorityFeeML (sample_world TrainPriorityFeeML) g Hrun.
  exact (targets_well_formed _ _ _ _ Hrun).
Defined.

Lemma feature_rows_complete_witness :
  ∃ g w', run TrainModel (sample_world TrainModel) = (Ok g, w')
    ∧ Forall (λ row, length row = length (g_feature_columns g)) (g_X g)
    ∧ Forall (Forall is_Some) (g_X g).
Proof.
  on_sample_run TrainModel (sample_world TrainModel) g Hrun.
  destruct (feature_rows_complete _ _ _ _ Hrun) as [K1 K2].
  split; [exact K1|]. apply K2. left. reflexivity.
Defined.

Lemma metadata_counts_witness :
  ∃ g w', run TrainPriorityFeeML (sample_world TrainPriorityFeeML) = (Ok g, w')
    ∧ get_key "total_dataset" (g_metadata g) = Some (JInt (len (g_data g)))
    ∧ (50 ≤ length (surviving TrainPriorityFeeML (g_data g))
          ≤ length (g_data g))%nat.
Proof.
  on_sample_run TrainPriorityFeeML (sample_world TrainPriorityFeeML) g Hrun.
  pose proof (metadata_counts _ _ _ _ Hrun) as K. cbv zeta in K.
  destruct K as (_ & _ & _ & K & _).
  exact (K eq_refl).
Defined.

Lemma rerun_agrees_witness :
  TrainPriorityFeeML ≠ TrainSuccessClassifier
  ∧ ∃ g w', run TrainPriorityFeeML (sample_world TrainPriorityFeeML) = (Ok g, w')
      ∧ ∃ g2 w2, run TrainPriorityFeeML w' = (Ok g2, w2)
          ∧ g_model g2 = g_model g
          ∧ dirs w2 = dirs w'
          ∧ files w2 !! metadata_path TrainPriorityFeeML
            = Some (JsonObject (g_metadata g2)).
Proof.
  assert (TrainPriorityFeeML ≠ TrainSuccessClassifier) as Hs by discriminate.
  split; [exact Hs|].
  on_sample_run TrainPriorityFeeML (sample_world TrainPriorityFeeML) g Hrun.
  destruct (rerun_agrees _ _ _ _ Hs Hrun)
    as (g2 & w2 & K1 & _ & _ & _ & _ & K2 & _ & _ & K3 & K4 & _).
  exists g2, w2. split; [exact K1|]. split; [exact K2|].
  split; [exact K3|exact K4].
Defined.

Lemma regressor_succeeds_iff_witness :
  TrainModel ≠ TrainSuccessClassifier
  ∧ (∀ params seed X y,
       ∃ m, forest_fit RandomForestRegressor params seed X y = Ok m)
  ∧ ∃ g w', run TrainModel (sample_world TrainModel) = (Ok g, w').
Proof.
  assert (TrainModel ≠ TrainSuccessClassifier) as Hs by discriminate.
  assert (∀ params seed X y,
            ∃ m, forest_fit RandomForestRegressor params seed X y = Ok m) as Hfit
    by (intros params seed X y; eexists; reflexivity).
  split; [exact Hs|]. split; [exact Hfit|].
  apply (regressor_succeeds_iff TrainModel (sample_world TrainModel) Hs Hfit).
  exists ten_records. split; [apply lookup_singleton_eq|].
  split; [vm_compute; reflexivity|].
  split; [vm_compute; lia|]. split; [discriminate|].
  split; [apply not_elem_of_empty|]. split; [apply lookup_empty|].
  split; [apply not_elem_of_empty|apply lookup_empty].
Defined.

Lemma run_aborts_witness :
  (∀ o, files (world_of (input_path TrainSuccessClassifier) fifty_without_key ∅)
          !! input_path TrainSuccessClassifier = Some (JsonObject o) →
        get_key "success" o = None)
  ∧ run TrainSuccessClassifier
      (world_of (input_path TrainSuccessClassifier) fifty_without_key ∅)
    = (Raise (KeyError "computeUnitsUsed"),
       world_of (input_path TrainSuccessClassifier) fifty_without_key ∅)
  ∧ exit_code (Raise (KeyError "computeUnitsUsed") : Res Globals) = 1%Z.
Proof.
  assert (∀ o, files (world_of (input_path TrainSuccessClassifier)
                        fifty_without_key ∅)
                 !! input_path TrainSuccessClassifier = Some (JsonObject o) →
               get_key "success" o = None) as Hobj.
  { intros o Ho. cbn [files world_of] in Ho.
    rewrite lookup_singleton_eq in Ho. discriminate Ho. }
  assert (run TrainSuccessClassifier
            (world_of (input_path TrainSuccessClassifier) fifty_without_key ∅)
          = (Raise (KeyError "computeUnitsUsed"),
             world_of (input_path TrainSuccessClassifier) fifty_without_key ∅))
    as Hrun
    by (vm_cast_no_check
          (eq_refl (run TrainSuccessClassifier
                      (world_of (input_path TrainSuccessClassifier)
                         fifty_without_key ∅)))).
  split; [exact Hobj|]. split; [exact Hrun|].
  destruct (run_aborts _ _ _ _ Hobj Hrun) as [[_ K]|[K|[_ K]]].
  - exact K.
  - destruct K as (params & X & y & K). discriminate K.
  - destruct K as (labels & a & b & K). discriminate K.
Defined.

Lemma too_few_rows_witness :
  TrainModel ≠ TrainPriorityFeeML
  ∧ files (world_of (input_path TrainModel) fifty_without_cu ∅)
      !! input_path TrainModel = Some (JsonRecords fifty_without_cu)
  ∧ fifty_without_cu ≠ []
  ∧ existsb has_computeUnitsUsed fifty_without_cu = true
  ∧ (length (surviving TrainModel fifty_without_cu) < 2)%nat
  ∧ run TrainModel (world_of (input_path TrainModel) fifty_without_cu ∅)
    = (Raise ValueError, world_of (input_path TrainModel) fifty_without_cu ∅).
Proof.
  assert (TrainModel ≠ TrainPriorityFeeML) as Hs by discriminate.
  assert (files (world_of (input_path TrainModel) fifty_without_cu ∅)
            !! input_path TrainModel = Some (JsonRecords fifty_without_cu)) as Hin
    by apply lookup_singleton_eq.
  assert (fifty_without_cu ≠ []) as Hne by (vm_compute; discriminate).
  assert (existsb has_computeUnitsUsed fifty_without_cu = true) as Hkey
    by (vm_compute; reflexivity).
  assert (length (surviving TrainModel fifty_without_cu) < 2)%nat as Hrows
    by (vm_compute; lia).
  split; [exact Hs|]. split; [exact Hin|]. split; [exact Hne|].
  split; [exact Hkey|]. split; [exact Hrows|].
  exact (too_few_rows TrainModel _ _ Hs Hin Hne Hkey Hrows).
Defined.

Lemma metadata_describes_model_witness :
  ∃ g w', run TrainSuccessClassifier (sample_world TrainSuccessClassifier)
            = (Ok g, w')
    ∧ ∃ params,
        forest_fit RandomForestClassifier params 42 (g_X_train g) (g_y_train g)
        = Ok (g_model g)
        ∧ files w' !! model_path TrainSuccessClassifier
          = Some (Pickle (g_model g)).
Proof.
  on_sample_run TrainSuccessClassifier (sample_world TrainSuccessClassifier) g Hrun.
  destruct (metadata_describes_model _ _ _ _ Hrun) as (params & K1 & K2 & _).
  exists params. split; [exact K1|exact K2].
Defined.

